(** * MCP Executor: the bundler, executor and health endpoints of [main.py]

    A shallow embedding of the three FastAPI handlers.  The Supabase store is
    an explicit state of three tables; every handler is a computation that
    threads this state and may raise.  A raised exception does not undo the
    writes made before it (the handlers issue their writes one by one, outside
    any transaction), hence the state is returned next to the outcome and not
    inside it.

    Everything the handlers call in other libraries (the tool-server client,
    the ReAct agent, the two Pydantic output parsers, the failures and the id
    generation of the store, Python's [str] and [repr]) is collected in the
    record [Env]; the handlers are functions of it.

    Conventions of the model:
    - ids are strings, as [BundlerResponse], [ExecutorRequest] and
      [ExecutorResponse] declare them; Python integers are [Z];
    - a table is the list of its rows in insertion order, and a query without
      [order] returns the matching rows in that order;
    - a collaborator is a function of its arguments: called twice on the same
      arguments it answers the same;
    - the agent's answer is the content of the last message of its result,
      a string. *)

From Stdlib Require Import List String Ascii ZArith Bool Lia DecimalString.
From Stdlib Require Import Permutation Sorted.
Import ListNotations.
Local Open Scope string_scope.
Local Open Scope list_scope.
Local Open Scope Z_scope.

(** ** Data model *)

(** The [parameters] column of an [mcp] row is never inspected by the
    handlers; it is kept as its JSON text. *)
Definition Json := string.

Module MCP.
Record t := mk { id : string; name : string; parameters : Json }.
End MCP.

Module Bundle.
Record t := mk {
  id : string;
  project_id : string;
  description : string;
  mcps : list string;
  routes : list string
}.
End Bundle.

Module Route.
Record t := mk {
  id : string;
  bundle_id : string;
  task_description : string;
  tool_sequence : list string;
  notes : string;
  execution_order : Z;
  mcp_tools : list string
}.
End Route.

(** The three tables read and written through the [supabase] client. *)
Module Supabase.
Record t := mk {
  mcp : list MCP.t;
  bundles : list Bundle.t;
  route : list Route.t
}.
End Supabase.

(** Pydantic models of the API. *)
Module BundlerRequest.
Record t := mk { project_id : string; mcp_ids : list string; description : string }.
End BundlerRequest.

Module BundlerResponse.
Record t := mk { bundle_id : string; routes_created : Z }.
End BundlerResponse.

Module ExecutorRequest.
Record t := mk { bundle_id : string; request : string }.
End ExecutorRequest.

Module ExecutorResponse.
Record t := mk { result : string; route_used : string; new_route_created : bool }.
End ExecutorResponse.

(** Pydantic models of the structured output. *)
Module Task.
Record t := mk { task_description : string; tool_sequence : list string; notes : string }.
End Task.

Module TaskPlanning.
Record t := mk { tasks : list Task.t }.
End TaskPlanning.

Module RouteExecution.
Record t := mk {
  matched_route : bool;
  route_used : string;
  execution_result : string;
  new_route_created : bool
}.
End RouteExecution.

(** ** Exceptions

    [HTTPException] is FastAPI's; it derives from [Exception], so the
    handlers' [except Exception] clauses catch it like any other.  [Error]
    stands for every other exception, with its message. *)
Inductive Exn : Type :=
| HTTPException (status_code : Z) (detail : string)
| Error (message : string).

(** The status line FastAPI answers with: the status of a raised
    [HTTPException], 500 for any other escaping exception, 200 for a returned
    value. *)
Definition http_status {A : Type} (r : Exn + A) : Z :=
  match r with
  | inr _ => 200
  | inl (HTTPException status_code _) => status_code
  | inl (Error _) => 500
  end.

(** ** The dictionary [mcp_config]

    A Python dict keeps insertion order, and assigning to a key that is
    already present replaces its value in place. *)
Definition MCPConfig := list (string * Json).

Fixpoint dict_set (d : MCPConfig) (k : string) (v : Json) : MCPConfig :=
  match d with
  | [] => [(k, v)]
  | (k', v') :: d' =>
      if String.eqb k' k then (k, v) :: d' else (k', v') :: dict_set d' k v
  end.

(** [mcp_config = {}; for mcp in data: mcp_config[mcp['name']] = mcp['parameters']] *)
Definition build_mcp_config (data : list MCP.t) : MCPConfig :=
  fold_left (fun mcp_config mcp => dict_set mcp_config (MCP.name mcp) (MCP.parameters mcp))
            data [].

(** ** Requests sent to the store *)
Inductive Query : Type :=
| mcp_select_in_id (ids : list string)
| bundles_select_eq_id (id : string)
| route_select_eq_bundle_id_order (bundle_id : string)
| bundles_insert (project_id description : string) (mcps routes : list string)
| route_insert (bundle_id task_description : string) (tool_sequence : list string)
               (notes : string) (execution_order : Z) (mcp_tools : list string)
| bundles_update_routes_eq_id (routes : list string) (id : string).

(** ** The environment of the handlers *)
Record Env : Type := {
  (** a tool descriptor of the tool-server client and its [name] *)
  Tool : Type;
  tool_name : Tool -> string;
  (** [await MultiServerMCPClient(mcp_config).get_tools()] *)
  get_tools : MCPConfig -> Exn + list Tool;
  (** [create_react_agent(model, tools, state_modifier=prompt)] invoked on one
      user message, up to the content of the last message of the result *)
  react_agent : list Tool -> string -> string -> Exn + string;
  (** [PydanticOutputParser(pydantic_object=TaskPlanning)] *)
  task_parser_parse : string -> Exn + TaskPlanning.t;
  task_parser_format_instructions : string;
  (** [PydanticOutputParser(pydantic_object=RouteExecution)] *)
  execution_parser_parse : string -> Exn + RouteExecution.t;
  execution_parser_format_instructions : string;
  (** the store: whether [execute()] raises on a request in a state, and the
      ids it gives to inserted rows *)
  db_fault : Query -> Supabase.t -> option string;
  new_bundle_id : Supabase.t -> string;
  new_route_id : Supabase.t -> string;
  (** Python: [str(e)] of an [HTTPException], [repr] of a list of strings,
      [str] of an integer *)
  str_HTTPException : Z -> string -> string;
  repr_list : list string -> string;
  str_int : Z -> string
}.

(** ** Computations over the store that may raise *)
Definition M (A : Type) : Type := Supabase.t -> (Exn + A) * Supabase.t.

Definition ret {A : Type} (a : A) : M A := fun db => (inr a, db).

Definition raise {A : Type} (e : Exn) : M A := fun db => (inl e, db).

Definition bind {A B : Type} (m : M A) (f : A -> M B) : M B :=
  fun db =>
    match m db with
    | (inr a, db') => f a db'
    | (inl e, db') => (inl e, db')
    end.

(** a call into a library that does not touch the store *)
Definition call {A : Type} (r : Exn + A) : M A := fun db => (r, db).

(** [try: m  except ...: h e] *)
Definition try_except {A : Type} (m : M A) (h : Exn -> M A) : M A :=
  fun db =>
    match m db with
    | (inr a, db') => (inr a, db')
    | (inl e, db') => h e db'
    end.

Notation "x <- m ;; k" := (bind m (fun x => k))
  (at level 61, m at next level, right associativity).

(** [data[0]]; an empty list raises [IndexError]. *)
Definition item0 {A : Type} (data : list A) : M A :=
  match data with
  | x :: _ => ret x
  | [] => raise (Error "list index out of range")
  end.

(** [.order('execution_order')]: ascending, rows of equal order kept in table
    order (each row is inserted in front of the rows that follow it). *)
Fixpoint insert_by_order (r : Route.t) (l : list Route.t) : list Route.t :=
  match l with
  | [] => [r]
  | r' :: l' =>
      if Route.execution_order r <=? Route.execution_order r'
      then r :: r' :: l'
      else r' :: insert_by_order r l'
  end.

Definition order_by_execution_order (l : list Route.t) : list Route.t :=
  fold_right insert_by_order [] l.

(** The order of the fetched routes. *)
Definition by_order (r r' : Route.t) : Prop :=
  Route.execution_order r <= Route.execution_order r'.

Section Handlers.

Variable env : Env.

(** [str(e)] *)
Definition str_exn (e : Exn) : string :=
  match e with
  | HTTPException status_code detail => str_HTTPException env status_code detail
  | Error message => message
  end.

(** *** The store's operations, each ended by [execute()] *)

Definition execute (q : Query) : M unit :=
  fun db =>
    match db_fault env q db with
    | Some message => (inl (Error message), db)
    | None => (inr tt, db)
    end.

(** [supabase.table('mcp').select('*').in_('id', ids).execute().data] *)
Definition select_mcp_in (ids : list string) : M (list MCP.t) :=
  _ <- execute (mcp_select_in_id ids) ;;
  fun db =>
    (inr (filter (fun m => existsb (String.eqb (MCP.id m)) ids) (Supabase.mcp db)), db).

(** [supabase.table('bundles').select('*').eq('id', id).execute().data] *)
Definition select_bundles_eq (id : string) : M (list Bundle.t) :=
  _ <- execute (bundles_select_eq_id id) ;;
  fun db =>
    (inr (filter (fun b => String.eqb (Bundle.id b) id) (Supabase.bundles db)), db).

(** [supabase.table('route').select('*').eq('bundle_id', id).order('execution_order').execute().data] *)
Definition select_route_eq_order (bundle_id : string) : M (list Route.t) :=
  _ <- execute (route_select_eq_bundle_id_order bundle_id) ;;
  fun db =>
    (inr (order_by_execution_order
            (filter (fun r => String.eqb (Route.bundle_id r) bundle_id) (Supabase.route db))),
     db).

(** [supabase.table('bundles').insert({...}).execute().data] *)
Definition insert_bundles (project_id description : string) (mcps routes : list string)
  : M (list Bundle.t) :=
  _ <- execute (bundles_insert project_id description mcps routes) ;;
  fun db =>
    let row := Bundle.mk (new_bundle_id env db) project_id description mcps routes in
    (inr [row],
     Supabase.mk (Supabase.mcp db) (Supabase.bundles db ++ [row]) (Supabase.route db)).

(** [supabase.table('route').insert({...}).execute().data] *)
Definition insert_route (bundle_id task_description : string) (tool_sequence : list string)
    (notes : string) (execution_order : Z) (mcp_tools : list string) : M (list Route.t) :=
  _ <- execute (route_insert bundle_id task_description tool_sequence notes
                             execution_order mcp_tools) ;;
  fun db =>
    let row := Route.mk (new_route_id env db) bundle_id task_description tool_sequence
                        notes execution_order mcp_tools in
    (inr [row],
     Supabase.mk (Supabase.mcp db) (Supabase.bundles db) (Supabase.route db ++ [row])).

Definition set_routes (routes : list string) (id : string) (b : Bundle.t) : Bundle.t :=
  if String.eqb (Bundle.id b) id
  then Bundle.mk (Bundle.id b) (Bundle.project_id b) (Bundle.description b)
                 (Bundle.mcps b) routes
  else b.

(** [supabase.table('bundles').update({'routes': routes}).eq('id', id).execute()] *)
Definition update_bundles_routes (routes : list string) (id : string) : M unit :=
  _ <- execute (bundles_update_routes_eq_id routes id) ;;
  fun db =>
    (inr tt,
     Supabase.mk (Supabase.mcp db) (map (set_routes routes id) (Supabase.bundles db))
                 (Supabase.route db)).

(** *** Text of the prompts *)

Definition nl : string := String "010"%char EmptyString.
Definition dq : string := String "034"%char EmptyString.

(** [enumerate(l)], counting from [i] *)
Fixpoint enumerate_from {A : Type} (i : Z) (l : list A) : list (Z * A) :=
  match l with
  | [] => []
  | x :: l' => (i, x) :: enumerate_from (i + 1) l'
  end.

Definition bundler_prompt (request : BundlerRequest.t) (tools : list (Tool env)) : string :=
  "You are a task planning agent. Break down the description into specific tasks and create routes."
  ++ nl ++ nl ++ "Your job:" ++ nl
  ++ "1. Analyze the description: " ++ dq ++ BundlerRequest.description request ++ dq ++ nl
  ++ "2. Look at available MCP tools and figure out what tasks can be accomplished" ++ nl
  ++ "3. Create routes (sequences of tool calls) for each task" ++ nl ++ nl
  ++ "Available tools: " ++ repr_list env (map (tool_name env) tools) ++ nl ++ nl
  ++ task_parser_format_instructions env.

Definition routes_context (routes : list Route.t) : string :=
  String.concat nl
    (map (fun ir : Z * Route.t =>
            let (i, route) := ir in
            ("Route " ++ str_int env (i + 1) ++ " (ID: " ++ Route.id route ++ "): "
             ++ Route.task_description route
             ++ " (Tools: " ++ repr_list env (Route.tool_sequence route) ++ ")")%string)
         (enumerate_from 0 routes)).

Definition executor_prompt (request : ExecutorRequest.t) (bundle : Bundle.t)
    (routes : list Route.t) (tools : list (Tool env)) : string :=
  "You are an MCP executor agent. You have access to these pre-defined routes:" ++ nl ++ nl
  ++ routes_context routes ++ nl ++ nl
  ++ "For the user request: " ++ dq ++ ExecutorRequest.request request ++ dq ++ nl ++ nl
  ++ "1. First check if any existing route matches the request" ++ nl
  ++ "2. If yes, execute that route using the specified tools and set matched_route=true, route_used=route_id" ++ nl
  ++ "3. If no route matches, create a new route and execute it, set matched_route=false, new_route_created=true" ++ nl ++ nl
  ++ "Bundle description: " ++ Bundle.description bundle ++ nl
  ++ "Available tools: " ++ repr_list env (map (tool_name env) tools) ++ nl ++ nl
  ++ "Execute the request and provide the structured output." ++ nl ++ nl
  ++ execution_parser_format_instructions env.

(** *** POST /mcp-bundler *)

(** The task of the [except:] branch (lines 97-101). *)
Definition fallback_task (request : BundlerRequest.t) (tools : list (Tool env)) : Task.t :=
  Task.mk (BundlerRequest.description request)
          (map (tool_name env) (firstn 3 tools))
          "Auto-generated from description".

(** Lines 92-101: the parsed tasks, or the single fallback task when
    [task_parser.parse] raises (the bare [except:] catches everything). *)
Definition plan_tasks (request : BundlerRequest.t) (tools : list (Tool env))
    (agent_response : string) : list Task.t :=
  match task_parser_parse env agent_response with
  | inr task_planning => TaskPlanning.tasks task_planning
  | inl _ => [fallback_task request tools]
  end.

(** Lines 114-124: [for i, task in enumerate(tasks)], entered at index [i]
    with the ids collected so far. *)
Fixpoint create_routes (bundle_id : string) (mcp_ids : list string) (i : Z)
    (tasks : list Task.t) (route_ids : list string) : M (list string) :=
  match tasks with
  | [] => ret route_ids
  | task :: tasks' =>
      route_response <- insert_route bundle_id (Task.task_description task)
                          (Task.tool_sequence task) (Task.notes task) i mcp_ids ;;
      row <- item0 route_response ;;
      create_routes bundle_id mcp_ids (i + 1) tasks' (route_ids ++ [Route.id row])
  end.

(** Lines 103-129: the writes, from the planned tasks on. *)
Definition persist (request : BundlerRequest.t) (tasks : list Task.t) : M BundlerResponse.t :=
  bundle_response <- insert_bundles (BundlerRequest.project_id request)
                       (BundlerRequest.description request)
                       (BundlerRequest.mcp_ids request) [] ;;
  bundle <- item0 bundle_response ;;
  let bundle_id := Bundle.id bundle in
  route_ids <- create_routes bundle_id (BundlerRequest.mcp_ids request) 0 tasks [] ;;
  _ <- update_bundles_routes route_ids bundle_id ;;
  ret (BundlerResponse.mk bundle_id (Z.of_nat (List.length tasks))).

(** Lines 67-129: the handler from the tool-server configuration on. *)
Definition bundle_with_config (request : BundlerRequest.t) (mcp_config : MCPConfig)
    : M BundlerResponse.t :=
  tools <- call (get_tools env mcp_config) ;;
  agent_response <- call (react_agent env tools (bundler_prompt request tools)
                            ("Plan tasks for: " ++ BundlerRequest.description request)) ;;
  persist request (plan_tasks request tools agent_response).

(** [except Exception as e: raise HTTPException(status_code=500, detail=str(e))] *)
Definition as_500 {A : Type} (e : Exn) : M A :=
  raise (HTTPException 500 (str_exn e)).

Definition create_bundle (request : BundlerRequest.t) : M BundlerResponse.t :=
  try_except
    (response <- select_mcp_in (BundlerRequest.mcp_ids request) ;;
     bundle_with_config request (build_mcp_config response))
    as_500.

(** *** POST /executor *)

(** Truth value of a string: non-empty. *)
Definition truthy (s : string) : bool :=
  match s with
  | EmptyString => false
  | String _ _ => true
  end.

(** Lines 193-206: the response built from the agent's final text, by the
    [try] branch when [execution_parser.parse] returns and by the bare
    [except:] branch when it raises. *)
Definition respond (routes : list Route.t) (agent_response : string) : ExecutorResponse.t :=
  match execution_parser_parse env agent_response with
  | inr execution_result =>
      ExecutorResponse.mk
        (RouteExecution.execution_result execution_result)
        (if truthy (RouteExecution.route_used execution_result)
         then RouteExecution.route_used execution_result
         else match routes with
              | route0 :: _ => Route.id route0
              | [] => "new_route"
              end)
        (RouteExecution.new_route_created execution_result)
  | inl _ =>
      ExecutorResponse.mk
        agent_response
        (match routes with
         | route0 :: _ => Route.id route0
         | [] => "new_route_created"
         end)
        (Nat.eqb (List.length routes) 0%nat)
  end.

Definition execute_request (request : ExecutorRequest.t) : M ExecutorResponse.t :=
  try_except
    (bundle_response <- select_bundles_eq (ExecutorRequest.bundle_id request) ;;
     match bundle_response with
     | [] => raise (HTTPException 404 "Bundle not found")
     | bundle :: _ =>
         routes <- select_route_eq_order (ExecutorRequest.bundle_id request) ;;
         mcp_response <- select_mcp_in (Bundle.mcps bundle) ;;
         tools <- call (get_tools env (build_mcp_config mcp_response)) ;;
         agent_response <- call (react_agent env tools
                                   (executor_prompt request bundle routes tools)
                                   (ExecutorRequest.request request)) ;;
         ret (respond routes agent_response)
     end)
    as_500.

(** *** GET /health *)

(** The JSON object [{"status": "healthy"}], as its list of members. *)
Definition health_check : M (list (string * string)) :=
  ret [("status", "healthy")].

End Handlers.

(** ** Reaching the agent

    Both handlers do nothing of their own before the agent has answered: they
    read the store, connect to the tool servers and invoke the agent.  The two
    predicates below name the values of such a run: each conjunct is the
    outcome of one call of the handler, in the order of the source. *)
Section Reaching.

Variable env : Env.

(** Lines 61-91 of [create_bundle]: the fetch of the [mcp] rows, the tool
    list and the agent's final text. *)
Definition bundler_reaches (request : BundlerRequest.t) (db : Supabase.t)
    (tools : list (Tool env)) (agent_response : string) : Prop :=
  exists response,
    select_mcp_in env (BundlerRequest.mcp_ids request) db = (inr response, db)
    /\ get_tools env (build_mcp_config response) = inr tools
    /\ react_agent env tools (bundler_prompt env request tools)
         ("Plan tasks for: " ++ BundlerRequest.description request) = inr agent_response.

(** Lines 139-192 of [execute_request]: the bundle, its ordered routes, the
    tool list and the agent's final text. *)
Definition executor_reaches (request : ExecutorRequest.t) (db : Supabase.t)
    (bundle : Bundle.t) (routes : list Route.t) (tools : list (Tool env))
    (agent_response : string) : Prop :=
  exists rest mcp_response,
    select_bundles_eq env (ExecutorRequest.bundle_id request) db = (inr (bundle :: rest), db)
    /\ select_route_eq_order env (ExecutorRequest.bundle_id request) db = (inr routes, db)
    /\ select_mcp_in env (Bundle.mcps bundle) db = (inr mcp_response, db)
    /\ get_tools env (build_mcp_config mcp_response) = inr tools
    /\ react_agent env tools (executor_prompt env request bundle routes tools)
         (ExecutorRequest.request request) = inr agent_response.

(** What one planned task becomes as a row of [route] (lines 116-123). *)
Definition row_of_task (bundle_id : string) (mcp_ids : list string) (i : Z)
    (task : Task.t) (row : Route.t) : Prop :=
  Route.bundle_id row = bundle_id
  /\ Route.task_description row = Task.task_description task
  /\ Route.tool_sequence row = Task.tool_sequence task
  /\ Route.notes row = Task.notes task
  /\ Route.execution_order row = i
  /\ Route.mcp_tools row = mcp_ids.

(** [rows] are the rows of the first tasks of [tasks], numbered from [i]. *)
Fixpoint rows_from (bundle_id : string) (mcp_ids : list string) (i : Z)
    (tasks : list Task.t) (rows : list Route.t) {struct rows} : Prop :=
  match rows, tasks with
  | [], _ => True
  | row :: rows', task :: tasks' =>
      row_of_task bundle_id mcp_ids i task row
      /\ rows_from bundle_id mcp_ids (i + 1) tasks' rows'
  | _ :: _, [] => False
  end.

(** The bundle row as [create_bundle] inserts it (lines 104-109). *)
Definition inserted_bundle (request : BundlerRequest.t) (db : Supabase.t) : Bundle.t :=
  Bundle.mk (new_bundle_id env db) (BundlerRequest.project_id request)
            (BundlerRequest.description request) (BundlerRequest.mcp_ids request) [].

End Reaching.

(** The environment with another parser for [RouteExecution]. *)
Definition with_execution_parser (env : Env)
    (parse : string -> Exn + RouteExecution.t) : Env :=
  {| Tool := Tool env;
     tool_name := tool_name env;
     get_tools := get_tools env;
     react_agent := react_agent env;
     task_parser_parse := task_parser_parse env;
     task_parser_format_instructions := task_parser_format_instructions env;
     execution_parser_parse := parse;
     execution_parser_format_instructions := execution_parser_format_instructions env;
     db_fault := db_fault env;
     new_bundle_id := new_bundle_id env;
     new_route_id := new_route_id env;
     str_HTTPException := str_HTTPException env;
     repr_list := repr_list env;
     str_int := str_int env |}.

(** Two outcomes of the parser that differ at most in [matched_route]. *)
Definition same_but_matched_route (a b : Exn + RouteExecution.t) : Prop :=
  match a, b with
  | inr x, inr y =>
      RouteExecution.route_used x = RouteExecution.route_used y
      /\ RouteExecution.execution_result x = RouteExecution.execution_result y
      /\ RouteExecution.new_route_created x = RouteExecution.new_route_created y
  | inl _, inl _ => True
  | _, _ => False
  end.

(** ** Sample environments

    Concrete collaborators on which the handlers run by computation: every
    tool server of the configuration offers one tool, named after it; the
    agent answers with a fixed text; the two parsers return what they are
    given here; the store numbers its rows and raises when [fault] says so. *)
Module Sample.

Definition str_nat (n : nat) : string := NilZero.string_of_uint (Nat.to_uint n).

Definition str_Z (z : Z) : string := NilZero.string_of_int (Z.to_int z).

Definition quoted (s : string) : string := "'" ++ s ++ "'".

Definition env (fault : Query -> Supabase.t -> option string)
    (planned : Exn + TaskPlanning.t) (executed : Exn + RouteExecution.t) : Env :=
  {| Tool := string;
     tool_name := fun tool => tool;
     get_tools := fun mcp_config => inr (map fst mcp_config);
     react_agent := fun _ _ _ => inr "final text";
     task_parser_parse := fun _ => planned;
     task_parser_format_instructions := "Return a JSON object.";
     execution_parser_parse := fun _ => executed;
     execution_parser_format_instructions := "Return a JSON object.";
     db_fault := fault;
     new_bundle_id := fun db => ("bundle-" ++ str_nat (List.length (Supabase.bundles db)))%string;
     new_route_id := fun db => ("route-" ++ str_nat (List.length (Supabase.route db)))%string;
     str_HTTPException := fun status_code detail => (str_Z status_code ++ ": " ++ detail)%string;
     repr_list := fun l => ("[" ++ String.concat ", " (map quoted l) ++ "]")%string;
     str_int := str_Z |}.

Definition no_fault : Query -> Supabase.t -> option string := fun _ _ => None.

(** The store refuses the route of order 1. *)
Definition second_route_fault : Query -> Supabase.t -> option string :=
  fun q _ =>
    match q with
    | route_insert _ _ _ _ 1 _ => Some "connection reset"
    | _ => None
    end.

Definition not_json : Exn + TaskPlanning.t := inl (Error "Invalid json output").

Definition not_json' : Exn + RouteExecution.t := inl (Error "Invalid json output").

Definition two_tasks : Exn + TaskPlanning.t :=
  inr (TaskPlanning.mk
         [Task.mk "search the web" ["search"] "first";
          Task.mk "write the report" ["search"; "files"] "second"]).

Definition mcps : list MCP.t :=
  [MCP.mk "m1" "search" "{}"; MCP.mk "m2" "files" "{}";
   MCP.mk "m3" "mail" "{}"; MCP.mk "m4" "calendar" "{}"].

(** Four tool servers, no bundle, no route. *)
Definition fresh_db : Supabase.t := Supabase.mk mcps [] [].

(** No tool server at all. *)
Definition empty_db : Supabase.t := Supabase.mk [] [] [].

(** One bundle without routes. *)
Definition bare_db : Supabase.t :=
  Supabase.mk mcps [Bundle.mk "bundle-0" "p1" "reports" ["m1"; "m2"] []] [].

(** One bundle with two routes, stored out of order. *)
Definition routed_db : Supabase.t :=
  Supabase.mk mcps
    [Bundle.mk "bundle-0" "p1" "reports" ["m1"; "m2"] ["route-0"; "route-1"]]
    [Route.mk "route-1" "bundle-0" "write the report" ["search"; "files"] "second" 1
              ["m1"; "m2"];
     Route.mk "route-0" "bundle-0" "search the web" ["search"] "first" 0 ["m1"; "m2"]].

Definition bundler_request : BundlerRequest.t :=
  BundlerRequest.mk "p1" ["m1"; "m2"; "m3"; "m4"] "weekly report".

Definition executor_request : ExecutorRequest.t :=
  ExecutorRequest.mk "bundle-0" "send the report".

Definition agent_said (matched_route : bool) (route_used : string)
    (new_route_created : bool) : Exn + RouteExecution.t :=
  inr (RouteExecution.mk matched_route route_used "report sent" new_route_created).

(** Neither parser accepts the agent's text. *)
Definition unparsed : Env := env no_fault not_json not_json'.

(** The planner's text parses into two tasks. *)
Definition planning : Env := env no_fault two_tasks not_json'.

(** The same, on a store that refuses the second route. *)
Definition flaky : Env := env second_route_fault two_tasks not_json'.

(** The executor's text parses into the given report. *)
Definition reporting (matched_route : bool) (route_used : string)
    (new_route_created : bool) : Env :=
  env no_fault two_tasks (agent_said matched_route route_used new_route_created).

Definition tools4 : list string := ["search"; "files"; "mail"; "calendar"].

Definition bundle0 : Bundle.t :=
  Bundle.mk "bundle-0" "p1" "reports" ["m1"; "m2"] ["route-0"; "route-1"].

Definition route0 : Route.t :=
  Route.mk "route-0" "bundle-0" "search the web" ["search"] "first" 0 ["m1"; "m2"].

Definition route1 : Route.t :=
  Route.mk "route-1" "bundle-0" "write the report" ["search"; "files"] "second" 1
           ["m1"; "m2"].

End Sample.

(** The environment with another parser for [TaskPlanning]. *)
Definition with_task_parser (env : Env) (parse : string -> Exn + TaskPlanning.t) : Env :=
  {| Tool := Tool env;
     tool_name := tool_name env;
     get_tools := get_tools env;
     react_agent := react_agent env;
     task_parser_parse := parse;
     task_parser_format_instructions := task_parser_format_instructions env;
     execution_parser_parse := execution_parser_parse env;
     execution_parser_format_instructions := execution_parser_format_instructions env;
     db_fault := db_fault env;
     new_bundle_id := new_bundle_id env;
     new_route_id := new_route_id env;
     str_HTTPException := str_HTTPException env;
     repr_list := repr_list env;
     str_int := str_int env |}.

(** The entry of [mcp_config] that a row of [mcp] sets. *)
Definition config_entry (mcp : MCP.t) : string * Json := (MCP.name mcp, MCP.parameters mcp).

(** ** What can stop a handler

    The exceptions that can be raised inside the [try] block of each handler,
    each with the call that raises it. *)
Section Causes.

Variable env : Env.

Inductive executor_stopped_by (request : ExecutorRequest.t) (db : Supabase.t) : Exn -> Prop :=
| stopped_by_bundle_query (message : string) :
    db_fault env (bundles_select_eq_id (ExecutorRequest.bundle_id request)) db = Some message ->
    executor_stopped_by request db (Error message)
| stopped_by_missing_bundle :
    select_bundles_eq env (ExecutorRequest.bundle_id request) db = (inr [], db) ->
    executor_stopped_by request db (HTTPException 404 "Bundle not found")
| stopped_by_route_query (bundle : Bundle.t) (rest : list Bundle.t) (message : string) :
    select_bundles_eq env (ExecutorRequest.bundle_id request) db = (inr (bundle :: rest), db) ->
    db_fault env (route_select_eq_bundle_id_order (ExecutorRequest.bundle_id request)) db
    = Some message ->
    executor_stopped_by request db (Error message)
| stopped_by_mcp_query (bundle : Bundle.t) (rest : list Bundle.t) (routes : list Route.t)
    (message : string) :
    select_bundles_eq env (ExecutorRequest.bundle_id request) db = (inr (bundle :: rest), db) ->
    select_route_eq_order env (ExecutorRequest.bundle_id request) db = (inr routes, db) ->
    db_fault env (mcp_select_in_id (Bundle.mcps bundle)) db = Some message ->
    executor_stopped_by request db (Error message)
| stopped_by_tool_client (bundle : Bundle.t) (rest : list Bundle.t) (routes : list Route.t)
    (mcp_response : list MCP.t) (e : Exn) :
    select_bundles_eq env (ExecutorRequest.bundle_id request) db = (inr (bundle :: rest), db) ->
    select_route_eq_order env (ExecutorRequest.bundle_id request) db = (inr routes, db) ->
    select_mcp_in env (Bundle.mcps bundle) db = (inr mcp_response, db) ->
    get_tools env (build_mcp_config mcp_response) = inl e ->
    executor_stopped_by request db e
| stopped_by_agent (bundle : Bundle.t) (rest : list Bundle.t) (routes : list Route.t)
    (mcp_response : list MCP.t) (tools : list (Tool env)) (e : Exn) :
    select_bundles_eq env (ExecutorRequest.bundle_id request) db = (inr (bundle :: rest), db) ->
    select_route_eq_order env (ExecutorRequest.bundle_id request) db = (inr routes, db) ->
    select_mcp_in env (Bundle.mcps bundle) db = (inr mcp_response, db) ->
    get_tools env (build_mcp_config mcp_response) = inr tools ->
    react_agent env tools (executor_prompt env request bundle routes tools)
      (ExecutorRequest.request request) = inl e ->
    executor_stopped_by request db e.


End Causes.

(** ** Sample outages: collaborators that raise *)
Module Outage.

(** The tool servers cannot be reached. *)
Definition offline : Env :=
  {| Tool := string;
     tool_name := fun tool => tool;
     get_tools := fun _ => inl (Error "connection refused");
     react_agent := fun _ _ _ => inr "final text";
     task_parser_parse := fun _ => Sample.two_tasks;
     task_parser_format_instructions := "Return a JSON object.";
     execution_parser_parse := fun _ => Sample.not_json';
     execution_parser_format_instructions := "Return a JSON object.";
     db_fault := Sample.no_fault;
     new_bundle_id := fun _ => "bundle-0";
     new_route_id := fun _ => "route-0";
     str_HTTPException := fun _ detail => detail;
     repr_list := String.concat ", ";
     str_int := Sample.str_Z |}.

(** The store answers no query on [route]. *)
Definition no_route_table : Query -> Supabase.t -> option string :=
  fun q _ =>
    match q with
    | route_select_eq_bundle_id_order _ => Some "relation route does not exist"
    | route_insert _ _ _ _ _ _ => Some "relation route does not exist"
    | _ => None
    end.

Definition routeless : Env := Sample.env no_route_table Sample.two_tasks Sample.not_json'.

(** Two rows of [mcp] under one name, around a third. *)
Definition renamed : list MCP.t :=
  [MCP.mk "m1" "search" "{v1}"; MCP.mk "m2" "files" "{}"; MCP.mk "m5" "search" "{v2}"].

End Outage.

(** * Properties *)

(** ** Running the computations *)

Lemma bind_inr {A B : Type} (m : M A) (f : A -> M B) (db db1 : Supabase.t) (a : A) :
  m db = (inr a, db1) -> bind m f db = f a db1.
Proof. intros H. unfold bind. now rewrite H. Qed.

Lemma bind_inl {A B : Type} (m : M A) (f : A -> M B) (db db1 : Supabase.t) (e : Exn) :
  m db = (inl e, db1) -> bind m f db = (inl e, db1).
Proof. intros H. unfold bind. now rewrite H. Qed.

Lemma bind_returns {A B : Type} (m : M A) (f : A -> M B) (db db' : Supabase.t) (b : B) :
  bind m f db = (inr b, db') ->
  exists a db1, m db = (inr a, db1) /\ f a db1 = (inr b, db').
Proof.
  unfold bind. destruct (m db) as [[e | a] db1] eqn:E; intros H.
  - discriminate H.
  - now exists a, db1.
Qed.

(** Whatever the body does, an error leaves the handler as status 500. *)
Lemma as_500_raises (env : Env) {A : Type} (m : M A) (db db' : Supabase.t) (e : Exn) :
  try_except m (as_500 env) db = (inl e, db') ->
  exists e0, e = HTTPException 500 (str_exn env e0) /\ m db = (inl e0, db').
Proof.
  unfold try_except, as_500, raise.
  destruct (m db) as [[e0 | a] db1]; intros H; inversion H; subst.
  now exists e0.
Qed.

Lemma as_500_returns (env : Env) {A : Type} (m : M A) (db db' : Supabase.t) (a : A) :
  try_except m (as_500 env) db = (inr a, db') <-> m db = (inr a, db').
Proof.
  unfold try_except, as_500, raise.
  destruct (m db) as [[e0 | a0] db1]; split; intros H; inversion H; subst; reflexivity.
Qed.

(** ** The ordered fetch of the routes *)

Lemma insert_by_order_perm (r : Route.t) (l : list Route.t) :
  Permutation (r :: l) (insert_by_order r l).
Proof.
  induction l as [| r' l' IH]; simpl; [reflexivity |].
  destruct (Route.execution_order r <=? Route.execution_order r'); [reflexivity |].
  rewrite perm_swap. now constructor.
Qed.

Lemma order_by_execution_order_perm (l : list Route.t) :
  Permutation l (order_by_execution_order l).
Proof.
  induction l as [| r l IH]; simpl; [constructor |].
  rewrite <- insert_by_order_perm. now constructor.
Qed.

Lemma insert_by_order_sorted (r : Route.t) (l : list Route.t) :
  StronglySorted by_order l -> StronglySorted by_order (insert_by_order r l).
Proof.
  induction l as [| r' l' IH]; intros Hs; simpl.
  - repeat constructor.
  - inversion Hs as [| ? ? Hs' Hall]; subst.
    destruct (Route.execution_order r <=? Route.execution_order r') eqn:Hle.
    + apply Z.leb_le in Hle. constructor; [exact Hs |].
      constructor; [exact Hle |].
      eapply Forall_impl; [| exact Hall]. unfold by_order. intros a Ha. lia.
    + apply Z.leb_gt in Hle. constructor; [now apply IH |].
      apply Forall_forall. intros a Ha.
      apply (Permutation_in _ (Permutation_sym (insert_by_order_perm r l'))) in Ha.
      destruct Ha as [<- | Ha]; [unfold by_order; lia |].
      rewrite Forall_forall in Hall. now apply Hall.
Qed.

(** The fetched routes are the matching rows, rearranged by ascending
    [execution_order]; so the first of them has the least order. *)
Lemma order_by_execution_order_sorted (l : list Route.t) :
  StronglySorted by_order (order_by_execution_order l).
Proof.
  induction l as [| r l IH]; simpl; [constructor |].
  now apply insert_by_order_sorted.
Qed.

Section StoreLemmas.

Variable env : Env.

Lemma execute_cases (q : Query) (db : Supabase.t) :
  (exists message, db_fault env q db = Some message
                   /\ execute env q db = (inl (Error message), db))
  \/ (db_fault env q db = None /\ execute env q db = (inr tt, db)).
Proof.
  unfold execute. destruct (db_fault env q db) as [message |].
  - left. now exists message.
  - now right.
Qed.

(** The three reads never change the store. *)
Lemma select_mcp_in_reads (ids : list string) (db : Supabase.t) :
  snd (select_mcp_in env ids db) = db.
Proof.
  unfold select_mcp_in, bind.
  destruct (execute_cases (mcp_select_in_id ids) db) as [(m & _ & ->) | (_ & ->)]; reflexivity.
Qed.

Lemma select_bundles_eq_reads (id : string) (db : Supabase.t) :
  snd (select_bundles_eq env id db) = db.
Proof.
  unfold select_bundles_eq, bind.
  destruct (execute_cases (bundles_select_eq_id id) db) as [(m & _ & ->) | (_ & ->)]; reflexivity.
Qed.

Lemma select_route_eq_order_reads (id : string) (db : Supabase.t) :
  snd (select_route_eq_order env id db) = db.
Proof.
  unfold select_route_eq_order, bind.
  destruct (execute_cases (route_select_eq_bundle_id_order id) db)
    as [(m & _ & ->) | (_ & ->)]; reflexivity.
Qed.

(** One insert into [route]: it raises and writes nothing, or appends the row. *)
Lemma insert_route_cases (bundle_id task_description : string) (tool_sequence : list string)
    (notes : string) (i : Z) (mcp_ids : list string) (db : Supabase.t) :
  let m := insert_route env bundle_id task_description tool_sequence notes i mcp_ids in
  let row := Route.mk (new_route_id env db) bundle_id task_description tool_sequence
                      notes i mcp_ids in
  (exists e, m db = (inl e, db))
  \/ m db = (inr [row], Supabase.mk (Supabase.mcp db) (Supabase.bundles db)
                                     (Supabase.route db ++ [row])).
Proof.
  cbv zeta. unfold insert_route, bind.
  destruct (execute_cases
              (route_insert bundle_id task_description tool_sequence notes i mcp_ids) db)
    as [(m & _ & ->) | (_ & ->)].
  - left. now eexists.
  - now right.
Qed.

Lemma rows_from_app (bundle_id : string) (mcp_ids : list string)
    (tasks : list Task.t) (task : Task.t) (row : Route.t) (rows : list Route.t) (i : Z) :
  row_of_task bundle_id mcp_ids i task row ->
  rows_from bundle_id mcp_ids (i + 1) tasks rows ->
  rows_from bundle_id mcp_ids i (task :: tasks) (row :: rows).
Proof. intros H1 H2. simpl. now split. Qed.

(** The loop over the tasks: the rows it has written when it stops, whether
    it returned or raised, are the rows of the first tasks, in order. *)
Lemma create_routes_spec (bundle_id : string) (mcp_ids : list string) (tasks : list Task.t) :
  forall (i : Z) (route_ids : list string) (db : Supabase.t),
  exists rows : list Route.t,
    let (r, db') := create_routes env bundle_id mcp_ids i tasks route_ids db in
    Supabase.route db' = Supabase.route db ++ rows
    /\ Supabase.bundles db' = Supabase.bundles db
    /\ Supabase.mcp db' = Supabase.mcp db
    /\ rows_from bundle_id mcp_ids i tasks rows
    /\ (List.length rows <= List.length tasks)%nat
    /\ (forall ids, r = inr ids ->
                    ids = route_ids ++ map Route.id rows
                    /\ List.length rows = List.length tasks).
Proof.
  induction tasks as [| task tasks' IH]; intros i route_ids db.
  - exists []. simpl. unfold ret. rewrite !app_nil_r.
    do 5 (split; [auto |]). intros ids H. now inversion H.
  - simpl create_routes.
    destruct (insert_route_cases bundle_id (Task.task_description task)
                (Task.tool_sequence task) (Task.notes task) i mcp_ids db) as [(e & H) | H];
      cbv zeta in H.
    + exists []. rewrite (bind_inl _ _ _ _ _ H). rewrite app_nil_r.
      do 4 (split; [simpl; auto |]). split; [simpl; lia |].
      intros ids Hids. discriminate Hids.
    + rewrite (bind_inr _ _ _ _ _ H). simpl item0.
      set (row := Route.mk (new_route_id env db) bundle_id (Task.task_description task)
                           (Task.tool_sequence task) (Task.notes task) i mcp_ids) in *.
      set (db1 := Supabase.mk (Supabase.mcp db) (Supabase.bundles db)
                              (Supabase.route db ++ [row])) in *.
      rewrite (bind_inr (ret row) _ db1 db1 row) by reflexivity.
      destruct (IH (i + 1) (route_ids ++ [Route.id row]) db1) as (rows & IHrows).
      exists (row :: rows).
      destruct (create_routes env bundle_id mcp_ids (i + 1) tasks'
                  (route_ids ++ [Route.id row]) db1) as [r db'].
      destruct IHrows as (Hr & Hb & Hm & Hrows & Hlen & Hok).
      split; [rewrite Hr; simpl; now rewrite <- app_assoc |].
      split; [now rewrite Hb |].
      split; [now rewrite Hm |].
      split; [apply rows_from_app; [now repeat split | exact Hrows] |].
      split; [simpl; lia |].
      intros ids Hids. destruct (Hok ids Hids) as (-> & Hl). split.
      * simpl. now rewrite <- app_assoc.
      * simpl. now rewrite Hl.
Qed.

Lemma insert_bundles_cases (project_id description : string) (mcps routes : list string)
    (db : Supabase.t) :
  let m := insert_bundles env project_id description mcps routes in
  let row := Bundle.mk (new_bundle_id env db) project_id description mcps routes in
  (exists e, m db = (inl e, db))
  \/ m db = (inr [row], Supabase.mk (Supabase.mcp db) (Supabase.bundles db ++ [row])
                                     (Supabase.route db)).
Proof.
  cbv zeta. unfold insert_bundles, bind.
  destruct (execute_cases (bundles_insert project_id description mcps routes) db)
    as [(m & _ & ->) | (_ & ->)].
  - left. now eexists.
  - now right.
Qed.

Lemma update_bundles_routes_cases (routes : list string) (id : string) (db : Supabase.t) :
  (exists e, update_bundles_routes env routes id db = (inl e, db))
  \/ update_bundles_routes env routes id db
      = (inr tt, Supabase.mk (Supabase.mcp db)
                             (map (set_routes routes id) (Supabase.bundles db))
                             (Supabase.route db)).
Proof.
  unfold update_bundles_routes, bind.
  destruct (execute_cases (bundles_update_routes_eq_id routes id) db)
    as [(m & _ & ->) | (_ & ->)].
  - left. now eexists.
  - now right.
Qed.

(** The writes of the bundler, whether they all went through or one raised:
    the rows of [route] written are rows of the first tasks, they all carry
    the id of the inserted bundle, and [bundles] is in one of three states:
    untouched, with the bundle inserted, or with its [routes] set as well. *)
Lemma persist_spec (request : BundlerRequest.t) (tasks : list Task.t) (db : Supabase.t) :
  let bundle := inserted_bundle env request db in
  exists rows : list Route.t,
    let (r, db') := persist env request tasks db in
    Supabase.route db' = Supabase.route db ++ rows
    /\ Supabase.mcp db' = Supabase.mcp db
    /\ rows_from (Bundle.id bundle) (BundlerRequest.mcp_ids request) 0 tasks rows
    /\ (List.length rows <= List.length tasks)%nat
    /\ ((Supabase.bundles db' = Supabase.bundles db /\ rows = [])
        \/ Supabase.bundles db' = Supabase.bundles db ++ [bundle]
        \/ Supabase.bundles db'
           = map (set_routes (map Route.id rows) (Bundle.id bundle))
                 (Supabase.bundles db ++ [bundle]))
    /\ (forall resp, r = inr resp ->
           resp = BundlerResponse.mk (Bundle.id bundle) (Z.of_nat (List.length tasks))
           /\ List.length rows = List.length tasks
           /\ Supabase.bundles db'
              = map (set_routes (map Route.id rows) (Bundle.id bundle))
                    (Supabase.bundles db ++ [bundle])).
Proof.
  cbv zeta. unfold persist.
  destruct (insert_bundles_cases (BundlerRequest.project_id request)
              (BundlerRequest.description request) (BundlerRequest.mcp_ids request) [] db)
    as [(e & H) | H]; cbv zeta in H.
  - exists []. rewrite (bind_inl _ _ _ _ _ H). rewrite app_nil_r. cbv iota beta.
    do 3 (split; [simpl; auto |]). split; [simpl; lia |].
    split; [now left |]. intros resp Hr. discriminate Hr.
  - rewrite (bind_inr _ _ _ _ _ H). simpl item0.
    fold (inserted_bundle env request db) in *.
    set (bundle := inserted_bundle env request db) in *.
    set (db1 := Supabase.mk (Supabase.mcp db) (Supabase.bundles db ++ [bundle])
                            (Supabase.route db)) in *.
    rewrite (bind_inr (ret bundle) _ db1 db1 bundle) by reflexivity.
    destruct (create_routes_spec (Bundle.id bundle) (BundlerRequest.mcp_ids request) tasks
                0 [] db1) as (rows & Hloop).
    exists rows. unfold bind at 1.
    destruct (create_routes env (Bundle.id bundle) (BundlerRequest.mcp_ids request) 0 tasks
                [] db1) as [[e | route_ids] db2].
    + destruct Hloop as (Hr & Hb & Hm & Hrows & Hlen & _).
      do 4 (split; [assumption |]). split; [right; left; exact Hb |].
      intros resp Hresp. discriminate Hresp.
    + destruct Hloop as (Hr & Hb & Hm & Hrows & Hlen & Hok).
      destruct (Hok route_ids eq_refl) as (Hids & Hlen'). simpl in Hids. subst route_ids.
      destruct (update_bundles_routes_cases (map Route.id rows) (Bundle.id bundle) db2)
        as [(e & Hu) | Hu].
      * rewrite (bind_inl _ _ _ _ _ Hu).
        do 4 (split; [assumption |]). split; [right; left; exact Hb |].
        intros resp Hresp. discriminate Hresp.
      * rewrite (bind_inr _ _ _ _ _ Hu). unfold ret. simpl.
        do 4 (split; [assumption |]). rewrite Hb.
        split; [right; right; reflexivity |].
        intros resp Hresp. inversion Hresp. auto.
Qed.

End StoreLemmas.

(** ** The bundler *)
Section Bundler.

Variable env : Env.

Lemma select_mcp_in_cases (ids : list string) (db : Supabase.t) :
  (exists e, select_mcp_in env ids db = (inl e, db))
  \/ (exists response, select_mcp_in env ids db = (inr response, db)).
Proof.
  unfold select_mcp_in, bind.
  destruct (execute_cases env (mcp_select_in_id ids) db) as [(m & _ & ->) | (_ & ->)].
  - left. now eexists.
  - right. now eexists.
Qed.

(** Once the agent has answered, the handler is the writes of the plan. *)
Lemma create_bundle_from_agent (request : BundlerRequest.t) (db : Supabase.t)
    (tools : list (Tool env)) (agent_response : string) :
  bundler_reaches env request db tools agent_response ->
  create_bundle env request db
  = try_except (persist env request (plan_tasks env request tools agent_response))
               (as_500 env) db.
Proof.
  intros (response & H1 & H2 & H3).
  unfold create_bundle, try_except, bundle_with_config, bind, call.
  rewrite H1, H2, H3. reflexivity.
Qed.

(** Two runs that reach the agent from the same request and store reach it
    with the same tools and the same answer. *)
Lemma bundler_reaches_functional (request : BundlerRequest.t) (db : Supabase.t)
    (tools tools' : list (Tool env)) (text text' : string) :
  bundler_reaches env request db tools text ->
  bundler_reaches env request db tools' text' ->
  tools = tools' /\ text = text'.
Proof.
  intros (response & H1 & H2 & H3) (response' & H1' & H2' & H3').
  rewrite H1 in H1'. inversion H1'; subst response'.
  rewrite H2 in H2'. inversion H2'; subst tools'.
  rewrite H3 in H3'. inversion H3'. auto.
Qed.

(** The handler writes nothing before the agent has answered. *)
Lemma create_bundle_cases (request : BundlerRequest.t) (db : Supabase.t) :
  (exists e, create_bundle env request db = (inl e, db)
             /\ forall tools text, ~ bundler_reaches env request db tools text)
  \/ (exists tools text, bundler_reaches env request db tools text).
Proof.
  destruct (select_mcp_in_cases (BundlerRequest.mcp_ids request) db)
    as [(e & H1) | (response & H1)].
  - left. exists (HTTPException 500 (str_exn env e)). split.
    + unfold create_bundle, try_except. now rewrite (bind_inl _ _ _ _ _ H1).
    + intros tools text (response & H1' & _). rewrite H1 in H1'. discriminate H1'.
  - destruct (get_tools env (build_mcp_config response)) as [e | tools] eqn:H2.
    + left. exists (HTTPException 500 (str_exn env e)). split.
      * unfold create_bundle, try_except, bundle_with_config, bind, call.
        now rewrite H1, H2.
      * intros tools text (response' & H1' & H2' & _).
        rewrite H1 in H1'. inversion H1'; subst response'.
        rewrite H2 in H2'. discriminate H2'.
    + destruct (react_agent env tools (bundler_prompt env request tools)
                  ("Plan tasks for: " ++ BundlerRequest.description request))
        as [e | text] eqn:H3.
      * left. exists (HTTPException 500 (str_exn env e)). split.
        -- unfold create_bundle, try_except, bundle_with_config, bind, call.
           now rewrite H1, H2, H3.
        -- intros tools' text (response' & H1' & H2' & H3').
           rewrite H1 in H1'. inversion H1'; subst response'.
           rewrite H2 in H2'. inversion H2'; subst tools'.
           rewrite H3 in H3'. discriminate H3'.
      * right. exists tools, text, response. auto.
Qed.

Lemma rows_from_nth (bundle_id : string) (mcp_ids : list string) (rows : list Route.t) :
  forall (tasks : list Task.t) (i : Z),
  rows_from bundle_id mcp_ids i tasks rows ->
  forall (k : nat) (row : Route.t),
  nth_error rows k = Some row ->
  exists task, nth_error tasks k = Some task
               /\ row_of_task bundle_id mcp_ids (i + Z.of_nat k) task row.
Proof.
  induction rows as [| row0 rows' IH]; intros tasks i H k row Hk.
  - destruct k; discriminate Hk.
  - destruct tasks as [| task0 tasks']; [contradiction H |].
    destruct H as (H0 & H'). destruct k as [| k'].
    + simpl in Hk. inversion Hk; subst row. exists task0. split; [reflexivity |].
      now replace (i + Z.of_nat 0) with i by lia.
    + simpl in Hk. destruct (IH tasks' (i + 1) H' k' row Hk) as (task & Ht & Hrow).
      exists task. split; [exact Ht |].
      now replace (i + Z.of_nat (S k')) with (i + 1 + Z.of_nat k') by lia.
Qed.

Lemma rows_from_orders (bundle_id : string) (mcp_ids : list string) (rows : list Route.t) :
  forall (tasks : list Task.t) (i : nat),
  rows_from bundle_id mcp_ids (Z.of_nat i) tasks rows ->
  map Route.execution_order rows = map Z.of_nat (seq i (List.length rows))
  /\ Forall (fun row => Route.bundle_id row = bundle_id /\ Route.mcp_tools row = mcp_ids) rows.
Proof.
  induction rows as [| row0 rows' IH]; intros tasks i H.
  - split; [reflexivity | constructor].
  - destruct tasks as [| task0 tasks']; [contradiction H |].
    destruct H as ((Hb & _ & _ & _ & Ho & Hm) & H').
    replace (Z.of_nat i + 1) with (Z.of_nat (S i)) in H' by lia.
    destruct (IH tasks' (S i) H') as (IH1 & IH2). split.
    + simpl. now rewrite Ho, IH1.
    + constructor; auto.
Qed.

Lemma orders_NoDup (i n : nat) : NoDup (map Z.of_nat (seq i n)).
Proof.
  revert i. induction n as [| n IH]; intros i; simpl; constructor.
  - rewrite in_map_iff. intros (j & Hj & Hin). apply in_seq in Hin. lia.
  - apply IH.
Qed.

(** The new bundle is the row after the old ones, whether or not its
    [routes] were set. *)
Lemma nth_error_inserted (request : BundlerRequest.t) (db : Supabase.t)
    (route_ids : list string) :
  let bundle := inserted_bundle env request db in
  nth_error (map (set_routes route_ids (Bundle.id bundle)) (Supabase.bundles db ++ [bundle]))
            (List.length (Supabase.bundles db))
  = Some (Bundle.mk (Bundle.id bundle) (BundlerRequest.project_id request)
                    (BundlerRequest.description request)
                    (BundlerRequest.mcp_ids request) route_ids).
Proof.
  cbv zeta. rewrite map_app, nth_error_app2; rewrite length_map; [| lia].
  rewrite Nat.sub_diag. simpl. unfold set_routes. simpl.
  now rewrite String.eqb_refl.
Qed.

End Bundler.

Section BundlerContract.

Variable env : Env.

(** With a store that never raises, the writes of a plan all go through. *)
Lemma create_routes_no_fault (bundle_id : string) (mcp_ids : list string)
    (tasks : list Task.t) :
  (forall q db, db_fault env q db = None) ->
  forall (i : Z) (route_ids : list string) (db : Supabase.t),
  exists ids db', create_routes env bundle_id mcp_ids i tasks route_ids db = (inr ids, db').
Proof.
  intros Hok. induction tasks as [| task tasks' IH]; intros i route_ids db.
  - now exists route_ids, db.
  - simpl. unfold insert_route, execute, bind at 1 2. rewrite Hok. simpl.
    unfold bind at 1. simpl. apply IH.
Qed.

Lemma persist_no_fault (request : BundlerRequest.t) (tasks : list Task.t) (db : Supabase.t) :
  (forall q db, db_fault env q db = None) ->
  exists resp db', persist env request tasks db = (inr resp, db').
Proof.
  intros Hok. unfold persist, insert_bundles, execute, bind at 1 2. rewrite Hok. simpl.
  unfold bind at 1. simpl. unfold bind at 1.
  match goal with
  | |- context [create_routes env ?b ?m ?i ?t ?r ?d] =>
      destruct (create_routes_no_fault b m t Hok i r d) as (ids & db1 & ->)
  end.
  unfold update_bundles_routes, execute, bind. rewrite Hok. simpl.
  now eexists _, _.
Qed.

(** What the writes of a plan have done when they all went through. *)
Lemma persist_returns (request : BundlerRequest.t) (tasks : list Task.t)
    (db db' : Supabase.t) (resp : BundlerResponse.t) :
  persist env request tasks db = (inr resp, db') ->
  let bundle := inserted_bundle env request db in
  exists rows : list Route.t,
    Supabase.route db' = Supabase.route db ++ rows
    /\ Supabase.mcp db' = Supabase.mcp db
    /\ rows_from (Bundle.id bundle) (BundlerRequest.mcp_ids request) 0 tasks rows
    /\ resp = BundlerResponse.mk (Bundle.id bundle) (Z.of_nat (List.length tasks))
    /\ List.length rows = List.length tasks
    /\ Supabase.bundles db'
       = map (set_routes (map Route.id rows) (Bundle.id bundle))
             (Supabase.bundles db ++ [bundle]).
Proof.
  intros Hrun. cbv zeta.
  destruct (persist_spec env request tasks db) as (rows & Hspec). cbv zeta in Hspec.
  rewrite Hrun in Hspec. destruct Hspec as (Hroute & Hmcp & Hrows & _ & _ & Hok).
  destruct (Hok resp eq_refl) as (Hresp & Hlen & Hbundles).
  now exists rows.
Qed.

(** C5: a bundler call that reaches its plan of N tasks and returns has
    inserted exactly one row into [bundles] and exactly N rows into [route];
    the i-th new route is the row of the i-th planned task with
    [execution_order = i] (from 0); the new bundle carries the request's
    fields and, in [routes], the ids of the N new routes in creation order;
    the response names this bundle and reports [routes_created = N]. *)
Theorem bundler_persists_plan (request : BundlerRequest.t) (db db' : Supabase.t)
    (tools : list (Tool env)) (agent_response : string) (resp : BundlerResponse.t) :
  bundler_reaches env request db tools agent_response ->
  create_bundle env request db = (inr resp, db') ->
  let tasks := plan_tasks env request tools agent_response in
  exists (bundle : Bundle.t) (rows : list Route.t),
    List.length (Supabase.bundles db') = S (List.length (Supabase.bundles db))
    /\ nth_error (Supabase.bundles db') (List.length (Supabase.bundles db)) = Some bundle
    /\ bundle = Bundle.mk (BundlerResponse.bundle_id resp)
                          (BundlerRequest.project_id request)
                          (BundlerRequest.description request)
                          (BundlerRequest.mcp_ids request)
                          (map Route.id rows)
    /\ Supabase.route db' = Supabase.route db ++ rows
    /\ List.length rows = List.length tasks
    /\ (forall (i : nat) (task : Task.t),
          nth_error tasks i = Some task ->
          exists row, nth_error rows i = Some row
                      /\ row_of_task (BundlerResponse.bundle_id resp)
                                     (BundlerRequest.mcp_ids request) (Z.of_nat i) task row)
    /\ Supabase.mcp db' = Supabase.mcp db
    /\ BundlerResponse.routes_created resp = Z.of_nat (List.length tasks).
Proof.
  intros Hreach Hrun tasks.
  rewrite (create_bundle_from_agent env request db tools agent_response Hreach) in Hrun.
  apply as_500_returns in Hrun. fold tasks in Hrun.
  destruct (persist_returns request tasks db db' resp Hrun)
    as (rows & Hroute & Hmcp & Hrows & Hresp & Hlen & Hbundles).
  exists (Bundle.mk (BundlerResponse.bundle_id resp) (BundlerRequest.project_id request)
                    (BundlerRequest.description request) (BundlerRequest.mcp_ids request)
                    (map Route.id rows)), rows.
  assert (Hid : BundlerResponse.bundle_id resp = Bundle.id (inserted_bundle env request db))
    by now rewrite Hresp.
  split; [rewrite Hbundles, length_map, length_app; simpl; lia |].
  split; [rewrite Hbundles, Hid; apply (nth_error_inserted env) |].
  split; [reflexivity |].
  split; [exact Hroute |].
  split; [exact Hlen |].
  split; [| split; [exact Hmcp | now rewrite Hresp]].
  intros i task Hi.
  assert (Hlt : (i < List.length rows)%nat).
  { rewrite Hlen. apply nth_error_Some. now rewrite Hi. }
  destruct (nth_error rows i) as [row |] eqn:Hrow;
    [| apply nth_error_None in Hrow; lia].
  exists row. split; [reflexivity |].
  destruct (rows_from_nth _ _ _ _ _ Hrows i row Hrow) as (task' & Ht & Hrt).
  rewrite Hi in Ht. inversion Ht; subst task'. now rewrite Hid.
Qed.

(** C4: when [task_parser.parse] raises, whatever the exception, the plan is
    exactly one task: its description is the request's, its tool sequence the
    names of the first min(3, number of tools) tools, its notes the fixed
    text.  Exactly one row of [route] results from it, the row of this task:
    on a store that takes the writes the call returns, has added this one row
    and reports one route; on any store the call adds at most one row, and
    this one whenever it returns. *)
Theorem bundler_parse_failure_fallback (request : BundlerRequest.t) (db : Supabase.t)
    (tools : list (Tool env)) (agent_response : string) (e : Exn) :
  bundler_reaches env request db tools agent_response ->
  task_parser_parse env agent_response = inl e ->
  let task := Task.mk (BundlerRequest.description request)
                      (map (tool_name env) (firstn 3 tools))
                      "Auto-generated from description" in
  plan_tasks env request tools agent_response = [task]
  /\ List.length (Task.tool_sequence task) = Nat.min 3 (List.length tools)
  /\ (exists rows, Supabase.route (snd (create_bundle env request db))
                   = Supabase.route db ++ rows
                   /\ (List.length rows <= 1)%nat)
  /\ (forall resp db',
        create_bundle env request db = (inr resp, db') ->
        exists row, Supabase.route db' = Supabase.route db ++ [row]
                    /\ row_of_task (BundlerResponse.bundle_id resp)
                                   (BundlerRequest.mcp_ids request) 0 task row
                    /\ BundlerResponse.routes_created resp = 1)
  /\ ((forall q db1, db_fault env q db1 = None) ->
      exists resp db' row,
        create_bundle env request db = (inr resp, db')
        /\ Supabase.route db' = Supabase.route db ++ [row]
        /\ row_of_task (BundlerResponse.bundle_id resp)
                       (BundlerRequest.mcp_ids request) 0 task row
        /\ BundlerResponse.routes_created resp = 1).
Proof.
  intros Hreach Hparse task.
  assert (Hplan : plan_tasks env request tools agent_response = [task]).
  { unfold plan_tasks. now rewrite Hparse. }
  split; [exact Hplan |].
  split; [unfold task; cbn [Task.tool_sequence]; now rewrite length_map, length_firstn |].
  split; [| split].
  - rewrite (create_bundle_from_agent env request db tools agent_response Hreach), Hplan.
    destruct (persist_spec env request [task] db) as (rows & Hspec). cbv zeta in Hspec.
    exists rows. unfold try_except, as_500, raise.
    destruct (persist env request [task] db) as [[e0 | resp] db1];
      destruct Hspec as (Hroute & _ & _ & Hlen & _); simpl; auto.
  - intros resp db' Hrun.
    rewrite (create_bundle_from_agent env request db tools agent_response Hreach), Hplan
      in Hrun.
    apply as_500_returns in Hrun.
    destruct (persist_returns request [task] db db' resp Hrun)
      as (rows & Hroute & _ & Hrows & Hresp & Hlen & _).
    destruct rows as [| row [| row1 rows]]; try discriminate Hlen.
    exists row. destruct Hrows as (Hrow & _).
    split; [exact Hroute |]. split; now rewrite Hresp.
  - intros Hok.
    destruct (persist_no_fault request [task] db Hok) as (resp & db' & Hpersist).
    destruct (persist_returns request [task] db db' resp Hpersist)
      as (rows & Hroute & _ & Hrows & Hresp & Hlen & _).
    destruct rows as [| row [| row1 rows]]; try discriminate Hlen.
    exists resp, db', row. destruct Hrows as (Hrow & _).
    split.
    + rewrite (create_bundle_from_agent env request db tools agent_response Hreach), Hplan.
      now apply as_500_returns.
    + split; [exact Hroute |]. split; now rewrite Hresp.
Qed.

Lemma as_500_state {A : Type} (m : M A) (db : Supabase.t) :
  snd (try_except m (as_500 env) db) = snd (m db).
Proof.
  unfold try_except, as_500, raise. now destruct (m db) as [[e | a] db1].
Qed.

(** C8: whatever the outcome of a bundler call (returned or raised, after any
    number of writes), the rows it has added to [route] have
    [execution_order] 0, 1, 2, ... in the order of their creation, hence
    pairwise different, and [mcp_tools] equal to the request's [mcp_ids]; if
    there are any, [bundles] has exactly one new row, which holds the
    request's [mcp_ids], and every new route refers to it by [bundle_id]; the
    k-th new route is built from the k-th planned task. *)
Theorem bundler_routes_invariant (request : BundlerRequest.t) (db : Supabase.t) :
  let db' := snd (create_bundle env request db) in
  exists rows : list Route.t,
    Supabase.route db' = Supabase.route db ++ rows
    /\ map Route.execution_order rows = map Z.of_nat (seq 0 (List.length rows))
    /\ NoDup (map Route.execution_order rows)
    /\ Forall (fun row => Route.mcp_tools row = BundlerRequest.mcp_ids request) rows
    /\ (rows = []
        \/ exists bundle,
             List.length (Supabase.bundles db') = S (List.length (Supabase.bundles db))
             /\ nth_error (Supabase.bundles db') (List.length (Supabase.bundles db))
                = Some bundle
             /\ Bundle.mcps bundle = BundlerRequest.mcp_ids request
             /\ Forall (fun row => Route.bundle_id row = Bundle.id bundle) rows)
    /\ (forall tools text,
          bundler_reaches env request db tools text ->
          forall (k : nat) (row : Route.t),
            nth_error rows k = Some row ->
            exists task,
              nth_error (plan_tasks env request tools text) k = Some task
              /\ Route.task_description row = Task.task_description task
              /\ Route.tool_sequence row = Task.tool_sequence task
              /\ Route.notes row = Task.notes task).
Proof.
  cbv zeta.
  destruct (create_bundle_cases env request db) as [(e & Hrun & Hnot) | (tools & text & Hreach)].
  - exists []. rewrite Hrun. simpl. rewrite app_nil_r.
    split; [reflexivity |]. split; [reflexivity |]. split; [constructor |].
    split; [constructor |]. split; [now left |].
    intros tools text Hreach. destruct (Hnot tools text Hreach).
  - rewrite (create_bundle_from_agent env request db tools text Hreach), as_500_state.
    destruct (persist_spec env request (plan_tasks env request tools text) db)
      as (rows & Hspec). cbv zeta in Hspec.
    destruct (persist env request (plan_tasks env request tools text) db) as [r db'].
    destruct Hspec as (Hroute & _ & Hrows & _ & Hbundles & _). simpl snd.
    destruct (rows_from_orders _ _ rows _ 0%nat Hrows) as (Horders & Hall).
    exists rows.
    split; [exact Hroute |]. split; [exact Horders |].
    split; [rewrite Horders; apply orders_NoDup |].
    split; [eapply Forall_impl; [| exact Hall]; now intros row (_ & H) |].
    split.
    + assert (Hrefs : Forall (fun row => Route.bundle_id row
                                         = Bundle.id (inserted_bundle env request db)) rows)
        by (eapply Forall_impl; [| exact Hall]; now intros row (H & _)).
      destruct Hbundles as [(_ & Hnil) | [Hb | Hb]]; [now left | right | right].
      * exists (inserted_bundle env request db). rewrite Hb.
        split; [rewrite length_app; simpl; lia |].
        split; [| now split].
        rewrite nth_error_app2 by lia. now rewrite Nat.sub_diag.
      * eexists. rewrite Hb.
        split; [rewrite length_map, length_app; simpl; lia |].
        split; [apply (nth_error_inserted env) |]. now split.
    + intros tools' text' Hreach' k row Hk.
      destruct (bundler_reaches_functional env _ _ _ _ _ _ Hreach Hreach') as (<- & <-).
      destruct (rows_from_nth _ _ _ _ _ Hrows k row Hk)
        as (task & Ht & _ & Hd & Hs & Hn & _).
      now exists task.
Qed.

(** C3, as the code has it: when the [mcp_ids] of a bundler call match no MCP
    record, the handler raises nothing for it; it goes on with the empty
    tool-server configuration as with any other.  The call then fails only
    when a later step raises, and as status 500; when the tool-server client
    and the agent answer and the store takes the writes, the call returns the
    bundle of its plan. *)
Theorem bundler_no_mcp_match_proceeds (request : BundlerRequest.t) (db : Supabase.t) :
  select_mcp_in env (BundlerRequest.mcp_ids request) db = (inr [], db) ->
  create_bundle env request db
  = try_except (bundle_with_config env request []) (as_500 env) db
  /\ (forall e db', create_bundle env request db = (inl e, db') ->
                    exists e0, e = HTTPException 500 (str_exn env e0))
  /\ (forall tools text,
        get_tools env [] = inr tools ->
        react_agent env tools (bundler_prompt env request tools)
          ("Plan tasks for: " ++ BundlerRequest.description request) = inr text ->
        (forall q db1, db_fault env q db1 = None) ->
        exists resp db',
          create_bundle env request db = (inr resp, db')
          /\ BundlerResponse.routes_created resp
             = Z.of_nat (List.length (plan_tasks env request tools text))).
Proof.
  intros Hfetch.
  assert (Hrun : create_bundle env request db
                 = try_except (bundle_with_config env request []) (as_500 env) db).
  { unfold create_bundle, try_except. now rewrite (bind_inr _ _ _ _ _ Hfetch). }
  split; [exact Hrun |]. split.
  - intros e db' He. unfold create_bundle in He.
    destruct (as_500_raises env _ _ _ _ He) as (e0 & -> & _). now exists e0.
  - intros tools text Htools Hagent Hok.
    assert (Hreach : bundler_reaches env request db tools text)
      by (exists []; auto).
    destruct (persist_no_fault request (plan_tasks env request tools text) db Hok)
      as (resp & db' & Hpersist).
    exists resp, db'.
    assert (Hret : create_bundle env request db = (inr resp, db')).
    { rewrite (create_bundle_from_agent env request db tools text Hreach).
      now apply as_500_returns. }
    split; [exact Hret |].
    destruct (persist_returns request _ db db' resp Hpersist)
      as (rows & _ & _ & _ & -> & _). reflexivity.
Qed.

End BundlerContract.

(** ** The executor *)
Section Executor.

Variable env : Env.

(** Once the agent has answered, the handler returns the response built from
    its text and leaves the store as it was. *)
Lemma execute_request_from_agent (request : ExecutorRequest.t) (db : Supabase.t)
    (bundle : Bundle.t) (routes : list Route.t) (tools : list (Tool env))
    (agent_response : string) :
  executor_reaches env request db bundle routes tools agent_response ->
  execute_request env request db = (inr (respond env routes agent_response), db).
Proof.
  intros (rest & mcp_response & H1 & H2 & H3 & H4 & H5).
  unfold execute_request, try_except.
  rewrite (bind_inr _ _ _ _ _ H1), (bind_inr _ _ _ _ _ H2), (bind_inr _ _ _ _ _ H3).
  unfold bind, call. rewrite H4, H5. reflexivity.
Qed.

Lemma filter_none {A : Type} (f : A -> bool) (l : list A) :
  (forall x, In x l -> f x = false) -> filter f l = [].
Proof.
  induction l as [| x l IH]; intros H; simpl; [reflexivity |].
  rewrite (H x (or_introl eq_refl)). apply IH. intros y Hy. apply H. now right.
Qed.

(** C1, as the code has it: when no row of [bundles] has the requested id
    (and the store answers the query), the handler raises
    [HTTPException(404, "Bundle not found")] inside its own [try] block, whose
    [except Exception] clause catches it and raises status 500 with the text
    of the caught exception as detail.  The caller gets 500, not 404.  The
    store is left as it was. *)
Theorem executor_missing_bundle_is_500 (request : ExecutorRequest.t) (db : Supabase.t) :
  db_fault env (bundles_select_eq_id (ExecutorRequest.bundle_id request)) db = None ->
  (forall b, In b (Supabase.bundles db) -> Bundle.id b <> ExecutorRequest.bundle_id request) ->
  execute_request env request db
  = (inl (HTTPException 500 (str_HTTPException env 404 "Bundle not found")), db)
  /\ http_status (fst (execute_request env request db)) = 500.
Proof.
  intros Hok Hnone.
  assert (Hrun : execute_request env request db
                 = (inl (HTTPException 500 (str_HTTPException env 404 "Bundle not found")),
                    db)).
  { unfold execute_request, try_except, select_bundles_eq, execute, bind.
    rewrite Hok. rewrite filter_none; [reflexivity |].
    intros b Hb. apply String.eqb_neq. now apply Hnone. }
  split; [exact Hrun | now rewrite Hrun].
Qed.

(** C2, as the code has it: on a bundle without routes, the flag of the
    response is true when the agent's text fails to parse, and is the flag
    the agent reported when it parses. *)
Theorem executor_zero_routes_flag (request : ExecutorRequest.t) (db : Supabase.t)
    (bundle : Bundle.t) (tools : list (Tool env)) (agent_response : string) :
  executor_reaches env request db bundle [] tools agent_response ->
  exists resp,
    execute_request env request db = (inr resp, db)
    /\ ExecutorResponse.new_route_created resp
       = match execution_parser_parse env agent_response with
         | inl _ => true
         | inr execution_result => RouteExecution.new_route_created execution_result
         end.
Proof.
  intros Hreach. exists (respond env [] agent_response).
  split; [now apply execute_request_from_agent with bundle tools |].
  unfold respond. now destruct (execution_parser_parse env agent_response).
Qed.

(** C6: when [execution_parser.parse] raises, whatever the exception, the
    handler returns (status 200) the agent's raw final text as [result], the
    id of the first fetched route as [route_used], or ["new_route_created"]
    when the bundle has no route, and [new_route_created] true exactly when
    the bundle has no route. *)
Theorem executor_parse_failure_fallback (request : ExecutorRequest.t) (db : Supabase.t)
    (bundle : Bundle.t) (routes : list Route.t) (tools : list (Tool env))
    (agent_response : string) (e : Exn) :
  executor_reaches env request db bundle routes tools agent_response ->
  execution_parser_parse env agent_response = inl e ->
  execute_request env request db
  = (inr (ExecutorResponse.mk
            agent_response
            (match routes with
             | route0 :: _ => Route.id route0
             | [] => "new_route_created"
             end)
            (match routes with
             | [] => true
             | _ :: _ => false
             end)),
     db)
  /\ http_status (fst (execute_request env request db)) = 200.
Proof.
  intros Hreach Hparse.
  rewrite (execute_request_from_agent request db bundle routes tools agent_response Hreach).
  unfold respond. rewrite Hparse. split; [| reflexivity]. now destruct routes.
Qed.

(** C7: when [execution_parser.parse] returns, the handler returns the parsed
    [execution_result] as [result]; as [route_used] the route id the agent
    reported when it is not empty, else the id of the first fetched route,
    else ["new_route"]; and as [new_route_created] the flag the agent
    reported. *)
Theorem executor_parse_success (request : ExecutorRequest.t) (db : Supabase.t)
    (bundle : Bundle.t) (routes : list Route.t) (tools : list (Tool env))
    (agent_response : string) (execution_result : RouteExecution.t) :
  executor_reaches env request db bundle routes tools agent_response ->
  execution_parser_parse env agent_response = inr execution_result ->
  execute_request env request db
  = (inr (ExecutorResponse.mk
            (RouteExecution.execution_result execution_result)
            (match RouteExecution.route_used execution_result, routes with
             | String _ _, _ => RouteExecution.route_used execution_result
             | EmptyString, route0 :: _ => Route.id route0
             | EmptyString, [] => "new_route"
             end)
            (RouteExecution.new_route_created execution_result)),
     db).
Proof.
  intros Hreach Hparse.
  rewrite (execute_request_from_agent request db bundle routes tools agent_response Hreach).
  unfold respond. rewrite Hparse.
  now destruct (RouteExecution.route_used execution_result), routes.
Qed.

End Executor.

(** The response depends on the parser's outcome only through the three
    fields other than [matched_route]. *)
Lemma respond_ignores_matched_route (env : Env)
    (parse1 parse2 : string -> Exn + RouteExecution.t)
    (routes : list Route.t) (agent_response : string) :
  same_but_matched_route (parse1 agent_response) (parse2 agent_response) ->
  respond (with_execution_parser env parse1) routes agent_response
  = respond (with_execution_parser env parse2) routes agent_response.
Proof.
  unfold respond, same_but_matched_route. simpl.
  destruct (parse1 agent_response) as [e1 | x], (parse2 agent_response) as [e2 | y];
    try contradiction; [reflexivity |].
  intros (-> & -> & ->). reflexivity.
Qed.

(** C9: the response of the executor does not depend on [matched_route]: run
    with two parsers whose outcomes on every text are both failures, or both
    successes that differ at most in [matched_route], and with everything
    else equal, the handler gives the same result and the same store. *)
Theorem executor_ignores_matched_route (env : Env)
    (parse1 parse2 : string -> Exn + RouteExecution.t)
    (request : ExecutorRequest.t) (db : Supabase.t) :
  (forall text, same_but_matched_route (parse1 text) (parse2 text)) ->
  execute_request (with_execution_parser env parse1) request db
  = execute_request (with_execution_parser env parse2) request db.
Proof.
  intros Hsame. unfold execute_request, try_except.
  change (select_bundles_eq (with_execution_parser env parse1))
    with (select_bundles_eq (with_execution_parser env parse2)).
  unfold bind at 1 6.
  destruct (select_bundles_eq (with_execution_parser env parse2)
              (ExecutorRequest.bundle_id request) db) as [[e | [| bundle rest]] db1];
    [reflexivity | reflexivity |].
  change (select_route_eq_order (with_execution_parser env parse1))
    with (select_route_eq_order (with_execution_parser env parse2)).
  unfold bind at 1 5.
  destruct (select_route_eq_order (with_execution_parser env parse2)
              (ExecutorRequest.bundle_id request) db1) as [[e | routes] db2];
    [reflexivity |].
  change (select_mcp_in (with_execution_parser env parse1))
    with (select_mcp_in (with_execution_parser env parse2)).
  unfold bind at 1 4.
  destruct (select_mcp_in (with_execution_parser env parse2) (Bundle.mcps bundle) db2)
    as [[e | mcp_response] db3]; [reflexivity |].
  unfold bind, call, ret.
  change (get_tools (with_execution_parser env parse1))
    with (get_tools (with_execution_parser env parse2)).
  destruct (get_tools (with_execution_parser env parse2) (build_mcp_config mcp_response))
    as [e | tools]; [reflexivity |].
  change (react_agent (with_execution_parser env parse1) tools
            (executor_prompt (with_execution_parser env parse1) request bundle routes tools))
    with (react_agent (with_execution_parser env parse2) tools
            (executor_prompt (with_execution_parser env parse2) request bundle routes tools)).
  destruct (react_agent (with_execution_parser env parse2) tools
              (executor_prompt (with_execution_parser env parse2) request bundle routes tools)
              (ExecutorRequest.request request)) as [e | text]; [reflexivity |].
  now rewrite (respond_ignores_matched_route env parse1 parse2 routes text (Hsame text)).
Qed.

(** C10: the health handler returns the object with the single member
    [status = "healthy"], in every state of the store, which it neither reads
    nor writes; it has no parameter through which the tool servers or the
    agent could be consulted. *)
Theorem health_check_is_healthy (db : Supabase.t) :
  health_check db = (inr [("status", "healthy")], db).
Proof. reflexivity. Qed.

(** ** Runs on the sample environments *)

(** The bundler on four tool servers when the agent's text does not parse:
    one task, on the first three tools, and the one route written for it. *)
Lemma bundler_parse_failure_fallback_witness :
  bundler_reaches Sample.unparsed Sample.bundler_request Sample.fresh_db
    Sample.tools4 "final text"
  /\ plan_tasks Sample.unparsed Sample.bundler_request Sample.tools4 "final text"
     = [Task.mk "weekly report" ["search"; "files"; "mail"]
                "Auto-generated from description"]
  /\ exists row,
       fst (create_bundle Sample.unparsed Sample.bundler_request Sample.fresh_db)
       = inr (BundlerResponse.mk "bundle-0" 1)
       /\ Supabase.route
            (snd (create_bundle Sample.unparsed Sample.bundler_request Sample.fresh_db))
          = [row]
       /\ row_of_task "bundle-0" ["m1"; "m2"; "m3"; "m4"] 0
            (Task.mk "weekly report" ["search"; "files"; "mail"]
                     "Auto-generated from description")
            row.
Proof.
  assert (H : bundler_reaches Sample.unparsed Sample.bundler_request Sample.fresh_db
                Sample.tools4 "final text").
  { eexists. repeat split; vm_compute; reflexivity. }
  split; [exact H |].
  destruct (bundler_parse_failure_fallback Sample.unparsed Sample.bundler_request
              Sample.fresh_db Sample.tools4 "final text"
              (Error "Invalid json output") H eq_refl)
    as (Hplan & _ & _ & _ & Hwrites).
  split; [exact Hplan |].
  destruct (Hwrites (fun _ _ => eq_refl)) as (resp & db' & row & Hrun & Hroute & Hrow & _).
  assert (Hresp : resp = BundlerResponse.mk "bundle-0" 1).
  { pose proof Hrun as Hrun'. vm_compute in Hrun'. now inversion Hrun'. }
  subst resp. exists row. rewrite Hrun. simpl fst. simpl snd.
  split; [reflexivity |]. split; [exact Hroute | exact Hrow].
Defined.

(** The same run, computed: the route the fallback leaves in the store. *)
Example bundler_fallback_run :
  create_bundle Sample.unparsed Sample.bundler_request Sample.fresh_db
  = (inr (BundlerResponse.mk "bundle-0" 1),
     Supabase.mk Sample.mcps
       [Bundle.mk "bundle-0" "p1" "weekly report" ["m1"; "m2"; "m3"; "m4"] ["route-0"]]
       [Route.mk "route-0" "bundle-0" "weekly report" ["search"; "files"; "mail"]
                 "Auto-generated from description" 0 ["m1"; "m2"; "m3"; "m4"]]).
Proof. reflexivity. Qed.

(** The bundler on a plan of two tasks: one bundle, two routes. *)
Lemma bundler_persists_plan_witness :
  bundler_reaches Sample.planning Sample.bundler_request Sample.fresh_db
    Sample.tools4 "final text"
  /\ exists (bundle : Bundle.t) (rows : list Route.t),
       nth_error (Supabase.bundles
                    (snd (create_bundle Sample.planning Sample.bundler_request
                            Sample.fresh_db))) 0
       = Some bundle
       /\ bundle = Bundle.mk "bundle-0" "p1" "weekly report" ["m1"; "m2"; "m3"; "m4"]
                             (map Route.id rows)
       /\ Supabase.route (snd (create_bundle Sample.planning Sample.bundler_request
                                 Sample.fresh_db))
          = rows
       /\ List.length rows = 2%nat.
Proof.
  assert (H : bundler_reaches Sample.planning Sample.bundler_request Sample.fresh_db
                Sample.tools4 "final text").
  { eexists. repeat split; vm_compute; reflexivity. }
  split; [exact H |].
  destruct (bundler_persists_plan Sample.planning Sample.bundler_request Sample.fresh_db
              (snd (create_bundle Sample.planning Sample.bundler_request Sample.fresh_db))
              Sample.tools4 "final text" (BundlerResponse.mk "bundle-0" 2) H eq_refl)
    as (bundle & rows & _ & Hnth & Hbundle & Hroute & Hlen & _).
  exists bundle, rows. auto.
Defined.

(** The bundler without any matching tool server: it goes on and returns. *)
Lemma bundler_no_mcp_match_proceeds_witness :
  select_mcp_in Sample.unparsed (BundlerRequest.mcp_ids Sample.bundler_request)
    Sample.empty_db = (inr [], Sample.empty_db)
  /\ exists resp db',
       create_bundle Sample.unparsed Sample.bundler_request Sample.empty_db = (inr resp, db')
       /\ BundlerResponse.routes_created resp = 1.
Proof.
  split; [reflexivity |].
  exact (proj2 (proj2 (bundler_no_mcp_match_proceeds Sample.unparsed Sample.bundler_request
                         Sample.empty_db eq_refl))
           [] "final text" eq_refl eq_refl (fun _ _ => eq_refl)).
Defined.

(** C3 as stated fails: no MCP record matches, and the call returns a bundle
    with status 200. *)
Lemma bundler_no_mcp_match_counterexample :
  select_mcp_in Sample.unparsed (BundlerRequest.mcp_ids Sample.bundler_request)
    Sample.empty_db = (inr [], Sample.empty_db)
  /\ fst (create_bundle Sample.unparsed Sample.bundler_request Sample.empty_db)
     = inr (BundlerResponse.mk "bundle-0" 1)
  /\ http_status (fst (create_bundle Sample.unparsed Sample.bundler_request Sample.empty_db))
     = 200
  /\ Supabase.bundles (snd (create_bundle Sample.unparsed Sample.bundler_request
                              Sample.empty_db))
     = [Bundle.mk "bundle-0" "p1" "weekly report" ["m1"; "m2"; "m3"; "m4"] ["route-0"]].
Proof. repeat split. Qed.

(** A store that refuses the second route: the call fails with status 500
    and leaves the bundle, with an empty [routes], and the first route. *)
Example bundler_partial_writes :
  fst (create_bundle Sample.flaky Sample.bundler_request Sample.fresh_db)
  = inl (HTTPException 500 "connection reset")
  /\ map Bundle.routes
       (Supabase.bundles (snd (create_bundle Sample.flaky Sample.bundler_request
                                 Sample.fresh_db)))
     = [[]]
  /\ map Route.execution_order
       (Supabase.route (snd (create_bundle Sample.flaky Sample.bundler_request
                               Sample.fresh_db)))
     = [0].
Proof. repeat split. Qed.

(** The executor on an unknown bundle id: status 500. *)
Lemma executor_missing_bundle_is_500_witness :
  execute_request Sample.unparsed Sample.executor_request Sample.fresh_db
  = (inl (HTTPException 500 "404: Bundle not found"), Sample.fresh_db)
  /\ http_status (fst (execute_request Sample.unparsed Sample.executor_request
                         Sample.fresh_db)) = 500.
Proof.
  apply (executor_missing_bundle_is_500 Sample.unparsed Sample.executor_request
           Sample.fresh_db); [reflexivity | intros b []].
Defined.

(** C2 as stated fails: the bundle has no route, the agent's text parses and
    reports no new route, and the response says [new_route_created = false]. *)
Lemma executor_zero_routes_counterexample :
  Supabase.route Sample.bare_db = []
  /\ execute_request (Sample.reporting false EmptyString false) Sample.executor_request
       Sample.bare_db
     = (inr (ExecutorResponse.mk "report sent" "new_route" false), Sample.bare_db).
Proof. split; reflexivity. Qed.

(** The executor on a bundle without routes when the text does not parse. *)
Lemma executor_zero_routes_flag_witness :
  executor_reaches Sample.unparsed Sample.executor_request Sample.bare_db
    (Bundle.mk "bundle-0" "p1" "reports" ["m1"; "m2"] []) [] ["search"; "files"] "final text"
  /\ exists resp,
       execute_request Sample.unparsed Sample.executor_request Sample.bare_db
       = (inr resp, Sample.bare_db)
       /\ ExecutorResponse.new_route_created resp = true.
Proof.
  assert (H : executor_reaches Sample.unparsed Sample.executor_request Sample.bare_db
                (Bundle.mk "bundle-0" "p1" "reports" ["m1"; "m2"] []) []
                ["search"; "files"] "final text").
  { eexists _, _. repeat split; vm_compute; reflexivity. }
  split; [exact H |].
  exact (executor_zero_routes_flag Sample.unparsed Sample.executor_request Sample.bare_db
           _ _ "final text" H).
Defined.

(** The executor on two routes when the text does not parse: the raw text
    and the route of least order. *)
Lemma executor_parse_failure_fallback_witness :
  executor_reaches Sample.unparsed Sample.executor_request Sample.routed_db
    Sample.bundle0 [Sample.route0; Sample.route1] ["search"; "files"] "final text"
  /\ execute_request Sample.unparsed Sample.executor_request Sample.routed_db
     = (inr (ExecutorResponse.mk "final text" "route-0" false), Sample.routed_db).
Proof.
  assert (H : executor_reaches Sample.unparsed Sample.executor_request Sample.routed_db
                Sample.bundle0 [Sample.route0; Sample.route1] ["search"; "files"]
                "final text").
  { eexists _, _. repeat split; vm_compute; reflexivity. }
  split; [exact H |].
  exact (proj1 (executor_parse_failure_fallback Sample.unparsed Sample.executor_request
                  Sample.routed_db _ _ _ "final text" (Error "Invalid json output")
                  H eq_refl)).
Defined.

(** The executor on two routes when the agent reports the second one. *)
Lemma executor_parse_success_witness :
  executor_reaches (Sample.reporting true "route-1" false) Sample.executor_request
    Sample.routed_db Sample.bundle0 [Sample.route0; Sample.route1] ["search"; "files"]
    "final text"
  /\ execute_request (Sample.reporting true "route-1" false) Sample.executor_request
       Sample.routed_db
     = (inr (ExecutorResponse.mk "report sent" "route-1" false), Sample.routed_db).
Proof.
  assert (H : executor_reaches (Sample.reporting true "route-1" false)
                Sample.executor_request Sample.routed_db Sample.bundle0
                [Sample.route0; Sample.route1] ["search"; "files"] "final text").
  { eexists _, _. repeat split; vm_compute; reflexivity. }
  split; [exact H |].
  exact (executor_parse_success (Sample.reporting true "route-1" false)
           Sample.executor_request Sample.routed_db _ _ _ "final text"
           (RouteExecution.mk true "route-1" "report sent" false) H eq_refl).
Defined.

(** Two parsers that disagree on [matched_route] only. *)
Lemma executor_ignores_matched_route_witness :
  execute_request
    (with_execution_parser Sample.unparsed
       (fun _ => Sample.agent_said true "route-1" false))
    Sample.executor_request Sample.routed_db
  = execute_request
      (with_execution_parser Sample.unparsed
         (fun _ => Sample.agent_said false "route-1" false))
      Sample.executor_request Sample.routed_db.
Proof.
  apply (executor_ignores_matched_route Sample.unparsed
           (fun _ => Sample.agent_said true "route-1" false)
           (fun _ => Sample.agent_said false "route-1" false)).
  intros text. simpl. repeat split.
Defined.

(** * Further properties of the handlers *)

(** ** What the handlers write, and what their failures look like *)
Section Frames.

Variable env : Env.

Lemma select_route_eq_order_cases (id : string) (db : Supabase.t) :
  (exists e, select_route_eq_order env id db = (inl e, db))
  \/ select_route_eq_order env id db
     = (inr (order_by_execution_order
               (filter (fun r => String.eqb (Route.bundle_id r) id) (Supabase.route db))),
        db).
Proof.
  unfold select_route_eq_order, bind.
  destruct (execute_cases env (route_select_eq_bundle_id_order id) db)
    as [(m & _ & ->) | (_ & ->)].
  - left. now eexists.
  - now right.
Qed.

Lemma select_bundles_eq_cases (id : string) (db : Supabase.t) :
  (exists e, select_bundles_eq env id db = (inl e, db))
  \/ select_bundles_eq env id db
     = (inr (filter (fun b => String.eqb (Bundle.id b) id) (Supabase.bundles db)), db).
Proof.
  unfold select_bundles_eq, bind.
  destruct (execute_cases env (bundles_select_eq_id id) db) as [(m & _ & ->) | (_ & ->)].
  - left. now eexists.
  - now right.
Qed.

(** X1: the executor only reads.  Whatever its outcome (a response, or an
    error at any step), the store after the call is the store before it. *)
Theorem executor_never_writes (request : ExecutorRequest.t) (db : Supabase.t) :
  snd (execute_request env request db) = db.
Proof.
  unfold execute_request. rewrite as_500_state. unfold bind at 1.
  destruct (select_bundles_eq_cases (ExecutorRequest.bundle_id request) db)
    as [(e & ->) | ->]; [reflexivity |].
  destruct (filter _ (Supabase.bundles db)) as [| bundle rest]; [reflexivity |].
  unfold bind at 1.
  destruct (select_route_eq_order_cases (ExecutorRequest.bundle_id request) db)
    as [(e & ->) | ->]; [reflexivity |].
  unfold bind at 1.
  destruct (select_mcp_in_cases env (Bundle.mcps bundle) db)
    as [(e & ->) | (mcp_response & ->)]; [reflexivity |].
  unfold bind, call, ret.
  destruct (get_tools env (build_mcp_config mcp_response)) as [e | tools]; [reflexivity |].
  now destruct (react_agent env tools _ (ExecutorRequest.request request)).
Qed.

Lemma select_bundles_eq_run (id : string) (db : Supabase.t) :
  select_bundles_eq env id db
  = match db_fault env (bundles_select_eq_id id) db with
    | Some message => (inl (Error message), db)
    | None => (inr (filter (fun b => String.eqb (Bundle.id b) id) (Supabase.bundles db)), db)
    end.
Proof.
  unfold select_bundles_eq, execute, bind.
  now destruct (db_fault env (bundles_select_eq_id id) db).
Qed.

Lemma select_route_eq_order_run (id : string) (db : Supabase.t) :
  select_route_eq_order env id db
  = match db_fault env (route_select_eq_bundle_id_order id) db with
    | Some message => (inl (Error message), db)
    | None =>
        (inr (order_by_execution_order
                (filter (fun r => String.eqb (Route.bundle_id r) id) (Supabase.route db))),
         db)
    end.
Proof.
  unfold select_route_eq_order, execute, bind.
  now destruct (db_fault env (route_select_eq_bundle_id_order id) db).
Qed.

Lemma select_mcp_in_run (ids : list string) (db : Supabase.t) :
  select_mcp_in env ids db
  = match db_fault env (mcp_select_in_id ids) db with
    | Some message => (inl (Error message), db)
    | None =>
        (inr (filter (fun m => existsb (String.eqb (MCP.id m)) ids) (Supabase.mcp db)), db)
    end.
Proof.
  unfold select_mcp_in, execute, bind.
  now destruct (db_fault env (mcp_select_in_id ids) db).
Qed.

(** X2: every failure of the executor reaches the caller as status 500 whose
    detail is [str] of the exception that stopped the handler, and this
    exception is one that a call of the handler raised: the store's, on one
    of the three queries; the handler's own [HTTPException(404)], when no
    bundle matched; the tool-server client's; or the agent's.  No failure is
    answered with another status, 404 included. *)
Theorem executor_failure_cause (request : ExecutorRequest.t) (db db' : Supabase.t)
    (e : Exn) :
  execute_request env request db = (inl e, db') ->
  exists e0,
    e = HTTPException 500 (str_exn env e0)
    /\ executor_stopped_by env request db e0.
Proof.
  intros Hrun. unfold execute_request in Hrun.
  destruct (as_500_raises env _ _ _ _ Hrun) as (e0 & -> & Hbody). clear Hrun.
  exists e0. split; [reflexivity |].
  pose proof (select_bundles_eq_run (ExecutorRequest.bundle_id request) db) as H1.
  destruct (db_fault env (bundles_select_eq_id (ExecutorRequest.bundle_id request)) db)
    as [message |] eqn:Hq1.
  { rewrite (bind_inl _ _ _ _ _ H1) in Hbody. injection Hbody as <- <-.
    now apply stopped_by_bundle_query. }
  rewrite (bind_inr _ _ _ _ _ H1) in Hbody.
  destruct (filter _ (Supabase.bundles db)) as [| bundle rest].
  { unfold raise in Hbody. injection Hbody as <- <-. now apply stopped_by_missing_bundle. }
  pose proof (select_route_eq_order_run (ExecutorRequest.bundle_id request) db) as H2.
  destruct (db_fault env (route_select_eq_bundle_id_order
                            (ExecutorRequest.bundle_id request)) db)
    as [message |] eqn:Hq2.
  { rewrite (bind_inl _ _ _ _ _ H2) in Hbody. injection Hbody as <- <-.
    now apply (stopped_by_route_query env request db bundle rest). }
  rewrite (bind_inr _ _ _ _ _ H2) in Hbody.
  pose proof (select_mcp_in_run (Bundle.mcps bundle) db) as H3.
  destruct (db_fault env (mcp_select_in_id (Bundle.mcps bundle)) db)
    as [message |] eqn:Hq3.
  { rewrite (bind_inl _ _ _ _ _ H3) in Hbody. injection Hbody as <- <-.
    now apply (stopped_by_mcp_query env request db bundle rest _ message H1 H2). }
  rewrite (bind_inr _ _ _ _ _ H3) in Hbody.
  unfold bind, call, ret in Hbody.
  destruct (get_tools env (build_mcp_config _)) as [e1 | tools] eqn:H4.
  { injection Hbody as <- <-.
    now apply (stopped_by_tool_client env request db bundle rest _ _ e1 H1 H2 H3). }
  destruct (react_agent env tools _ (ExecutorRequest.request request)) as [e1 | text] eqn:H5.
  { injection Hbody as <- <-.
    now apply (stopped_by_agent env request db bundle rest _ _ tools e1 H1 H2 H3 H4). }
  discriminate Hbody.
Qed.




(** X4: a bundler call stopped before the agent has answered has written
    nothing.  When the tool-server client raises, or the agent does, the call
    fails with status 500 and the text of that exception, and the store is
    unchanged. *)
Theorem bundler_upstream_failure (request : BundlerRequest.t) (db : Supabase.t)
    (response : list MCP.t) :
  select_mcp_in env (BundlerRequest.mcp_ids request) db = (inr response, db) ->
  (forall e,
     get_tools env (build_mcp_config response) = inl e ->
     create_bundle env request db = (inl (HTTPException 500 (str_exn env e)), db))
  /\ (forall tools e,
        get_tools env (build_mcp_config response) = inr tools ->
        react_agent env tools (bundler_prompt env request tools)
          ("Plan tasks for: " ++ BundlerRequest.description request) = inl e ->
        create_bundle env request db = (inl (HTTPException 500 (str_exn env e)), db)).
Proof.
  intros H1. split.
  - intros e H2. unfold create_bundle, try_except, bundle_with_config, bind, call.
    now rewrite H1, H2.
  - intros tools e H2 H3. unfold create_bundle, try_except, bundle_with_config, bind, call.
    now rewrite H1, H2, H3.
Qed.

(** The writes of a plan that raise leave [bundles] untouched, or with the
    new bundle and its empty [routes]. *)
Lemma persist_raises (request : BundlerRequest.t) (tasks : list Task.t)
    (db db' : Supabase.t) (e : Exn) :
  persist env request tasks db = (inl e, db') ->
  (Supabase.bundles db' = Supabase.bundles db /\ Supabase.route db' = Supabase.route db)
  \/ Supabase.bundles db' = Supabase.bundles db ++ [inserted_bundle env request db].
Proof.
  unfold persist.
  destruct (insert_bundles_cases env (BundlerRequest.project_id request)
              (BundlerRequest.description request) (BundlerRequest.mcp_ids request) [] db)
    as [(e0 & H) | H]; cbv zeta in H.
  - rewrite (bind_inl _ _ _ _ _ H). intros Hrun. inversion Hrun; subst. now left.
  - rewrite (bind_inr _ _ _ _ _ H). simpl item0.
    fold (inserted_bundle env request db) in *.
    set (bundle := inserted_bundle env request db) in *.
    set (db1 := Supabase.mk (Supabase.mcp db) (Supabase.bundles db ++ [bundle])
                            (Supabase.route db)) in *.
    rewrite (bind_inr (ret bundle) _ db1 db1 bundle) by reflexivity.
    destruct (create_routes_spec env (Bundle.id bundle) (BundlerRequest.mcp_ids request)
                tasks 0 [] db1) as (rows & Hloop).
    unfold bind at 1.
    destruct (create_routes env (Bundle.id bundle) (BundlerRequest.mcp_ids request) 0 tasks
                [] db1) as [[e1 | route_ids] db2].
    + destruct Hloop as (_ & Hb & _). intros Hrun. inversion Hrun; subst. now right.
    + destruct Hloop as (_ & Hb & _).
      destruct (update_bundles_routes_cases env route_ids (Bundle.id bundle) db2)
        as [(e1 & Hu) | Hu].
      * rewrite (bind_inl _ _ _ _ _ Hu). intros Hrun. inversion Hrun; subst. now right.
      * rewrite (bind_inr _ _ _ _ _ Hu). intros Hrun. discriminate Hrun.
Qed.

End Frames.

Section BundlerFrames.

Variable env : Env.

Lemma set_routes_other (routes : list string) (id : string) (l : list Bundle.t) :
  (forall b, In b l -> Bundle.id b <> id) ->
  map (set_routes routes id) l = l.
Proof.
  induction l as [| b l IH]; intros H; simpl; [reflexivity |].
  rewrite IH by (intros b' Hb'; apply H; now right).
  unfold set_routes.
  destruct (String.eqb_spec (Bundle.id b) id) as [Heq | _]; [| reflexivity].
  now destruct (H b (or_introl eq_refl)).
Qed.

(** X5: the bundler never touches the [mcp] table, and, when the id the
    store gives to the new bundle is not the id of an existing one, it leaves
    every existing row of [bundles] as it was: after the call, returned or
    failed, [bundles] is the old table followed by at most one row. *)
Theorem bundler_keeps_existing_rows (request : BundlerRequest.t) (db : Supabase.t) :
  (forall b, In b (Supabase.bundles db) -> Bundle.id b <> new_bundle_id env db) ->
  let db' := snd (create_bundle env request db) in
  Supabase.mcp db' = Supabase.mcp db
  /\ exists added : list Bundle.t,
       Supabase.bundles db' = Supabase.bundles db ++ added
       /\ (List.length added <= 1)%nat.
Proof.
  intros Hfresh. cbv zeta.
  destruct (create_bundle_cases env request db) as [(e & Hrun & _) | (tools & text & Hreach)].
  - rewrite Hrun. simpl. split; [reflexivity |]. exists []. rewrite app_nil_r. auto.
  - rewrite (create_bundle_from_agent env request db tools text Hreach), as_500_state.
    destruct (persist_spec env request (plan_tasks env request tools text) db)
      as (rows & Hspec). cbv zeta in Hspec.
    destruct (persist env request (plan_tasks env request tools text) db) as [r db'].
    destruct Hspec as (_ & Hmcp & _ & _ & Hbundles & _). simpl snd.
    split; [exact Hmcp |].
    destruct Hbundles as [(Hb & _) | [Hb | Hb]].
    + exists []. rewrite app_nil_r. auto.
    + exists [inserted_bundle env request db]. auto.
    + rewrite map_app, set_routes_other in Hb by exact Hfresh.
      eexists. split; [exact Hb | simpl; lia].
Qed.

(** X6: a bundler call that fails never leaves a bundle that lists routes.
    Either it has written nothing at all, or it leaves the new bundle with
    [routes = []], whatever number of its routes were written before the
    failure. *)
Theorem bundler_failure_leaves_no_listed_routes (request : BundlerRequest.t)
    (db db' : Supabase.t) (e : Exn) :
  create_bundle env request db = (inl e, db') ->
  db' = db
  \/ (Supabase.bundles db' = Supabase.bundles db ++ [inserted_bundle env request db]
      /\ Bundle.routes (inserted_bundle env request db) = []).
Proof.
  intros Hrun.
  destruct (create_bundle_cases env request db) as [(e' & Hrun' & _) | (tools & text & Hreach)].
  - rewrite Hrun' in Hrun. inversion Hrun. now left.
  - rewrite (create_bundle_from_agent env request db tools text Hreach) in Hrun.
    destruct (as_500_raises env _ _ _ _ Hrun) as (e0 & _ & Hpersist).
    destruct (persist_spec env request (plan_tasks env request tools text) db)
      as (rows & Hspec). cbv zeta in Hspec. rewrite Hpersist in Hspec.
    destruct Hspec as (Hroute & Hmcp & _).
    destruct (persist_raises env request _ db db' e0 Hpersist) as [(Hb & Hr) | Hb].
    + left. destruct db as [m b r], db' as [m' b' r']. simpl in *. f_equal; assumption.
    + right. now split.
Qed.

End BundlerFrames.

(** ** The tool-server configuration *)

Lemma build_mcp_config_snoc (data : list MCP.t) (mcp : MCP.t) :
  build_mcp_config (data ++ [mcp])
  = dict_set (build_mcp_config data) (MCP.name mcp) (MCP.parameters mcp).
Proof. unfold build_mcp_config. now rewrite fold_left_app. Qed.

Lemma dict_set_new (d : MCPConfig) (k : string) (v : Json) :
  ~ In k (map fst d) -> dict_set d k v = d ++ [(k, v)].
Proof.
  induction d as [| [k' v'] d IH]; intros Hk; simpl; [reflexivity |].
  destruct (String.eqb_spec k' k) as [-> | _].
  - destruct Hk. now left.
  - rewrite IH; [reflexivity |]. intros Hin. apply Hk. now right.
Qed.

Lemma dict_set_keys (d : MCPConfig) (k : string) (v : Json) :
  forall k', In k' (map fst (dict_set d k v)) <-> k' = k \/ In k' (map fst d).
Proof.
  induction d as [| [k0 v0] d IH]; intros k'; simpl.
  - intuition.
  - destruct (String.eqb_spec k0 k) as [-> | Hne]; simpl.
    + intuition.
    + rewrite IH. intuition.
Qed.

Lemma dict_set_NoDup (d : MCPConfig) (k : string) (v : Json) :
  NoDup (map fst d) -> NoDup (map fst (dict_set d k v)).
Proof.
  induction d as [| [k0 v0] d IH]; intros Hd; simpl.
  - repeat constructor. intros [].
  - inversion Hd as [| ? ? Hnotin Hd']; subst.
    destruct (String.eqb_spec k0 k) as [-> | Hne]; simpl.
    + now constructor.
    + constructor; [| now apply IH].
      rewrite dict_set_keys. intros [Heq | Hin]; [now apply Hne | now apply Hnotin].
Qed.

Lemma dict_set_entries (d : MCPConfig) (k : string) (v : Json) :
  NoDup (map fst d) ->
  forall k' v', In (k', v') (dict_set d k v)
                <-> (k' = k /\ v' = v) \/ (k' <> k /\ In (k', v') d).
Proof.
  induction d as [| [k0 v0] d IH]; intros Hd k' v'; simpl.
  - split.
    + intros [H | []]. inversion H. now left.
    + intros [(-> & ->) | (_ & [])]. now left.
  - inversion Hd as [| ? ? Hnotin Hd']; subst.
    destruct (String.eqb_spec k0 k) as [-> | Hne]; simpl.
    + split.
      * intros [H | H]; [inversion H; now left |].
        right. split; [| now right]. intros ->. apply Hnotin.
        now apply (in_map fst) in H.
      * intros [(-> & ->) | (Hk & [H | H])]; [now left | | now right].
        inversion H; subst. now destruct Hk.
    + rewrite (IH Hd'). split.
      * intros [H | [H | (Hk & H)]].
        -- inversion H; subst. right. split; [exact Hne | now left].
        -- now left.
        -- right. split; [exact Hk | now right].
      * intros [H | (Hk & [H | H])].
        -- right. now left.
        -- now left.
        -- right. right. now split.
Qed.

Lemma build_mcp_config_NoDup (data : list MCP.t) :
  NoDup (map fst (build_mcp_config data)).
Proof.
  induction data as [| mcp data IH] using rev_ind; [constructor |].
  rewrite build_mcp_config_snoc. now apply dict_set_NoDup.
Qed.

(** X7: in the configuration built from the fetched rows every server name
    occurs once, and it is bound to the [parameters] of the last fetched row
    of that name: an entry [(name, parameters)] is in the configuration
    exactly when some row has this name and these parameters and no later row
    has the name. *)
Theorem build_mcp_config_last_wins (data : list MCP.t) :
  NoDup (map fst (build_mcp_config data))
  /\ forall name parameters,
       In (name, parameters) (build_mcp_config data)
       <-> exists before mcp after,
             data = before ++ mcp :: after
             /\ MCP.name mcp = name
             /\ MCP.parameters mcp = parameters
             /\ (forall mcp', In mcp' after -> MCP.name mcp' <> name).
Proof.
  split; [apply build_mcp_config_NoDup |].
  induction data as [| last data IH] using rev_ind; intros name parameters.
  - simpl. split; [intros [] |].
    intros (before & mcp & after & H & _). now destruct before.
  - rewrite build_mcp_config_snoc, (dict_set_entries _ _ _ (build_mcp_config_NoDup data)).
    split.
    + intros [(-> & ->) | (Hne & Hin)].
      * exists data, last, []. repeat split; auto; contradiction.
      * apply IH in Hin. destruct Hin as (before & mcp & after & -> & Hn & Hp & Hafter).
        exists before, mcp, (after ++ [last]).
        split; [now rewrite <- app_assoc |]. split; [exact Hn |]. split; [exact Hp |].
        intros mcp' Hin. apply in_app_or in Hin. destruct Hin as [Hin | [<- | []]].
        -- now apply Hafter.
        -- intros Heq. now apply Hne.
    + intros (before & mcp & after & Hdata & Hn & Hp & Hafter).
      induction after as [| a after _] using rev_ind.
      * apply app_inj_tail in Hdata. destruct Hdata as (_ & <-). left. now split.
      * rewrite app_comm_cons, app_assoc in Hdata.
        apply app_inj_tail in Hdata. destruct Hdata as (-> & <-).
        right. split.
        -- intros Heq. apply (Hafter last); [apply in_or_app; right; now left | now symmetry].
        -- apply IH. exists before, mcp, after. repeat split; auto.
           intros mcp' Hin. apply Hafter. apply in_or_app. now left.
Qed.

(** X8: when the fetched rows have pairwise different names, the
    configuration is the list of their entries, in the order of the fetch. *)
Theorem build_mcp_config_distinct_names (data : list MCP.t) :
  NoDup (map MCP.name data) ->
  build_mcp_config data = map config_entry data.
Proof.
  induction data as [| last data IH] using rev_ind; intros Hnames; [reflexivity |].
  rewrite map_app in Hnames. simpl in Hnames.
  apply NoDup_remove in Hnames. rewrite app_nil_r in Hnames.
  destruct Hnames as (Hnames & Hlast).
  rewrite build_mcp_config_snoc, (IH Hnames), map_app. simpl.
  apply dict_set_new. rewrite map_map. simpl. exact Hlast.
Qed.

(** ** The routes the executor sees *)
Section FetchedRoutes.

Variable env : Env.

Lemma select_route_eq_order_returns (id : string) (db db' : Supabase.t)
    (routes : list Route.t) :
  select_route_eq_order env id db = (inr routes, db') ->
  routes = order_by_execution_order
             (filter (fun r => String.eqb (Route.bundle_id r) id) (Supabase.route db)).
Proof.
  destruct (select_route_eq_order_cases env id db) as [(e & ->) | ->]; intros H.
  - discriminate H.
  - now inversion H.
Qed.

(** X9: the routes the executor works with are exactly the rows of [route]
    of the requested bundle, each once, and the first of them, whose id both
    branches of the response fall back to, has the least [execution_order]
    among them. *)
Theorem executor_first_route_is_least (request : ExecutorRequest.t) (db : Supabase.t)
    (bundle : Bundle.t) (route0 : Route.t) (rest : list Route.t)
    (tools : list (Tool env)) (agent_response : string) :
  executor_reaches env request db bundle (route0 :: rest) tools agent_response ->
  Permutation
    (filter (fun r => String.eqb (Route.bundle_id r) (ExecutorRequest.bundle_id request))
            (Supabase.route db))
    (route0 :: rest)
  /\ In route0 (Supabase.route db)
  /\ Route.bundle_id route0 = ExecutorRequest.bundle_id request
  /\ forall r, In r (Supabase.route db) ->
               Route.bundle_id r = ExecutorRequest.bundle_id request ->
               Route.execution_order route0 <= Route.execution_order r.
Proof.
  intros (rest' & mcp_response & _ & Hroutes & _).
  apply select_route_eq_order_returns in Hroutes.
  set (matching := filter (fun r => String.eqb (Route.bundle_id r)
                                      (ExecutorRequest.bundle_id request))
                          (Supabase.route db)) in *.
  assert (Hperm : Permutation matching (route0 :: rest))
    by (rewrite Hroutes; apply order_by_execution_order_perm).
  assert (Hsorted : StronglySorted by_order (route0 :: rest))
    by (rewrite Hroutes; apply order_by_execution_order_sorted).
  assert (Hin0 : In route0 matching)
    by (apply (Permutation_in _ (Permutation_sym Hperm)); now left).
  apply filter_In in Hin0. destruct Hin0 as (Hin0 & Hid0). apply String.eqb_eq in Hid0.
  split; [exact Hperm |]. split; [exact Hin0 |]. split; [exact Hid0 |].
  intros r Hr Hid.
  assert (Hin : In r (route0 :: rest)).
  { apply (Permutation_in _ Hperm). apply filter_In. split; [exact Hr |].
    now apply String.eqb_eq. }
  destruct Hin as [<- | Hin]; [lia |].
  inversion Hsorted as [| ? ? _ Hall]; subst.
  rewrite Forall_forall in Hall. exact (Hall r Hin).
Qed.

(** Rows numbered upwards come back from the ordered fetch as they are. *)
Lemma order_by_execution_order_ascending (rows : list Route.t) :
  forall i : nat,
  map Route.execution_order rows = map Z.of_nat (seq i (List.length rows)) ->
  order_by_execution_order rows = rows.
Proof.
  induction rows as [| r rows IH]; intros i H; [reflexivity |].
  simpl in H. injection H as Hr Hrows. simpl. rewrite (IH (S i) Hrows).
  destruct rows as [| r' rows']; [reflexivity |].
  simpl in Hrows. injection Hrows as Hr' _. simpl.
  destruct (Z.leb_spec (Route.execution_order r) (Route.execution_order r'));
    [reflexivity | lia].
Qed.

Lemma filter_all {A : Type} (f : A -> bool) (l : list A) :
  Forall (fun x => f x = true) l -> filter f l = l.
Proof.
  induction 1 as [| x l Hx _ IH]; simpl; [reflexivity |]. now rewrite Hx, IH.
Qed.

(** X10: the executor on a bundle the bundler has just returned.  When the
    store gave the new bundle an id that no existing bundle or route refers
    to, and answers the executor's three queries, then the queries of an
    executor call for the returned [bundle_id] find exactly that bundle,
    fetch exactly the routes the bundler created, in plan order, whose ids
    are the bundle's [routes], and fetch for the bundle's [mcps] the rows of
    [mcp] that the bundler had fetched for the request's [mcp_ids]. *)
Theorem executor_after_bundler (request : BundlerRequest.t) (db db' : Supabase.t)
    (tools : list (Tool env)) (agent_response : string) (resp : BundlerResponse.t) :
  bundler_reaches env request db tools agent_response ->
  create_bundle env request db = (inr resp, db') ->
  (forall b, In b (Supabase.bundles db) -> Bundle.id b <> BundlerResponse.bundle_id resp) ->
  (forall r, In r (Supabase.route db) -> Route.bundle_id r <> BundlerResponse.bundle_id resp) ->
  db_fault env (bundles_select_eq_id (BundlerResponse.bundle_id resp)) db' = None ->
  db_fault env (route_select_eq_bundle_id_order (BundlerResponse.bundle_id resp)) db' = None ->
  db_fault env (mcp_select_in_id (BundlerRequest.mcp_ids request)) db' = None ->
  exists (bundle : Bundle.t) (rows : list Route.t),
    Supabase.route db' = Supabase.route db ++ rows
    /\ List.length rows
       = List.length (plan_tasks env request tools agent_response)
    /\ Bundle.routes bundle = map Route.id rows
    /\ Bundle.mcps bundle = BundlerRequest.mcp_ids request
    /\ select_bundles_eq env (BundlerResponse.bundle_id resp) db' = (inr [bundle], db')
    /\ select_route_eq_order env (BundlerResponse.bundle_id resp) db' = (inr rows, db')
    /\ fst (select_mcp_in env (Bundle.mcps bundle) db')
       = fst (select_mcp_in env (BundlerRequest.mcp_ids request) db).
Proof.
  intros Hreach Hrun Hfresh Hfresh' Hq1 Hq2 Hq3.
  pose proof Hreach as (response & Hfetch & _).
  rewrite (create_bundle_from_agent env request db tools agent_response Hreach) in Hrun.
  apply as_500_returns in Hrun.
  destruct (persist_returns env request _ db db' resp Hrun)
    as (rows & Hroute & Hmcp & Hrows & Hresp & Hlen & Hbundles).
  assert (Hid : Bundle.id (inserted_bundle env request db) = BundlerResponse.bundle_id resp)
    by now rewrite Hresp.
  rewrite Hid in Hbundles, Hrows.
  set (id := BundlerResponse.bundle_id resp) in *.
  set (bundle := Bundle.mk id (BundlerRequest.project_id request)
                           (BundlerRequest.description request)
                           (BundlerRequest.mcp_ids request) (map Route.id rows)).
  assert (Hb : Supabase.bundles db' = Supabase.bundles db ++ [bundle]).
  { rewrite Hbundles, map_app, (set_routes_other _ _ _ Hfresh). simpl.
    unfold set_routes. rewrite Hid, String.eqb_refl. reflexivity. }
  destruct (rows_from_orders _ _ rows _ 0%nat Hrows) as (Horders & Hall).
  assert (Hsel1 : select_bundles_eq env id db' = (inr [bundle], db')).
  { unfold select_bundles_eq, execute, bind. rewrite Hq1, Hb, filter_app. simpl.
    rewrite String.eqb_refl, filter_none; [reflexivity |].
    intros b Hin. apply String.eqb_neq. now apply Hfresh. }
  assert (Hsel2 : select_route_eq_order env id db' = (inr rows, db')).
  { unfold select_route_eq_order, execute, bind. rewrite Hq2, Hroute, filter_app.
    rewrite filter_none, filter_all.
    - simpl. now rewrite (order_by_execution_order_ascending rows 0 Horders).
    - eapply Forall_impl; [| exact Hall]. intros r (Hr & _). now apply String.eqb_eq.
    - intros r Hin. apply String.eqb_neq. now apply Hfresh'. }
  assert (Hsel3 : select_mcp_in env (BundlerRequest.mcp_ids request) db'
                  = (inr response, db')).
  { unfold select_mcp_in, execute, bind in Hfetch |- *. rewrite Hq3, Hmcp.
    destruct (db_fault env (mcp_select_in_id (BundlerRequest.mcp_ids request)) db);
      [discriminate Hfetch |]. now inversion Hfetch. }
  exists bundle, rows.
  split; [exact Hroute |]. split; [exact Hlen |]. split; [reflexivity |].
  split; [reflexivity |]. split; [exact Hsel1 |]. split; [exact Hsel2 |].
  cbn [Bundle.mcps bundle]. now rewrite Hsel3, Hfetch.
Qed.

End FetchedRoutes.

(** ** The fallback of the bundler cannot be told from a plan *)

(** X11: a bundler call whose parser raises and a bundler call whose parser
    returns the one task of the fallback give the same response and leave the
    same store: nothing the caller gets, and nothing the handler writes,
    records that the plan was not the agent's. *)
Theorem bundler_fallback_is_silent (env : Env)
    (parse1 parse2 : string -> Exn + TaskPlanning.t)
    (request : BundlerRequest.t) (db : Supabase.t)
    (tools : list (Tool env)) (agent_response : string) (e : Exn) :
  bundler_reaches (with_task_parser env parse1) request db tools agent_response ->
  parse1 agent_response = inl e ->
  parse2 agent_response = inr (TaskPlanning.mk [fallback_task env request tools]) ->
  create_bundle (with_task_parser env parse1) request db
  = create_bundle (with_task_parser env parse2) request db.
Proof.
  intros Hreach H1 H2.
  assert (Hreach' : bundler_reaches (with_task_parser env parse2) request db tools
                      agent_response) by exact Hreach.
  rewrite (create_bundle_from_agent (with_task_parser env parse1) request db tools
             agent_response Hreach).
  rewrite (create_bundle_from_agent (with_task_parser env parse2) request db tools
             agent_response Hreach').
  unfold plan_tasks. simpl task_parser_parse. rewrite H1, H2. reflexivity.
Qed.

(** ** Runs of the further properties *)

(** Unreachable tool servers: status 500 with the client's message, and an
    untouched store. *)
Lemma bundler_upstream_failure_witness :
  create_bundle Outage.offline Sample.bundler_request Sample.fresh_db
  = (inl (HTTPException 500 "connection refused"), Sample.fresh_db).
Proof.
  exact (proj1 (bundler_upstream_failure Outage.offline Sample.bundler_request
                  Sample.fresh_db Sample.mcps eq_refl)
           (Error "connection refused") eq_refl).
Defined.

(** A second bundle next to an existing one. *)
Lemma bundler_keeps_existing_rows_witness :
  Supabase.mcp (snd (create_bundle Sample.planning Sample.bundler_request Sample.routed_db))
  = Supabase.mcp Sample.routed_db
  /\ exists added : list Bundle.t,
       Supabase.bundles
         (snd (create_bundle Sample.planning Sample.bundler_request Sample.routed_db))
       = Supabase.bundles Sample.routed_db ++ added
       /\ (List.length added <= 1)%nat.
Proof.
  apply (bundler_keeps_existing_rows Sample.planning Sample.bundler_request
           Sample.routed_db).
  intros b [<- | []]. discriminate.
Defined.

(** The store that refuses the second route: the bundle stays, listing no
    route. *)
Lemma bundler_failure_leaves_no_listed_routes_witness :
  snd (create_bundle Sample.flaky Sample.bundler_request Sample.fresh_db) = Sample.fresh_db
  \/ (Supabase.bundles
        (snd (create_bundle Sample.flaky Sample.bundler_request Sample.fresh_db))
      = Supabase.bundles Sample.fresh_db
        ++ [inserted_bundle Sample.flaky Sample.bundler_request Sample.fresh_db]
      /\ Bundle.routes (inserted_bundle Sample.flaky Sample.bundler_request Sample.fresh_db)
         = []).
Proof.
  exact (bundler_failure_leaves_no_listed_routes Sample.flaky Sample.bundler_request
           Sample.fresh_db _ (HTTPException 500 "connection reset") eq_refl).
Defined.

(** Two rows named [search]: one entry, at the place of the first, with the
    parameters of the second. *)
Example build_mcp_config_renamed :
  build_mcp_config Outage.renamed = [("search", "{v2}"); ("files", "{}")].
Proof. reflexivity. Qed.

Lemma build_mcp_config_distinct_names_witness :
  build_mcp_config Sample.mcps
  = [("search", "{}"); ("files", "{}"); ("mail", "{}"); ("calendar", "{}")].
Proof.
  apply (build_mcp_config_distinct_names Sample.mcps).
  repeat (constructor; [simpl; intuition discriminate |]). constructor.
Defined.

(** The routes stored out of order: the executor's first route is the one of
    order 0. *)
Lemma executor_first_route_is_least_witness :
  executor_reaches Sample.unparsed Sample.executor_request Sample.routed_db
    Sample.bundle0 [Sample.route0; Sample.route1] ["search"; "files"] "final text"
  /\ In Sample.route0 (Supabase.route Sample.routed_db)
  /\ Route.bundle_id Sample.route0 = "bundle-0".
Proof.
  assert (H : executor_reaches Sample.unparsed Sample.executor_request Sample.routed_db
                Sample.bundle0 [Sample.route0; Sample.route1] ["search"; "files"]
                "final text").
  { eexists _, _. repeat split; vm_compute; reflexivity. }
  split; [exact H |].
  destruct (executor_first_route_is_least Sample.unparsed Sample.executor_request
              Sample.routed_db _ _ _ _ _ H) as (_ & Hin & Hid & _).
  split; [exact Hin | exact Hid].
Defined.

(** The bundler, then the executor on the bundle it returned. *)
Lemma executor_after_bundler_witness :
  bundler_reaches Sample.planning Sample.bundler_request Sample.routed_db
    Sample.tools4 "final text"
  /\ exists (bundle : Bundle.t) (rows : list Route.t),
       let db' := snd (create_bundle Sample.planning Sample.bundler_request
                         Sample.routed_db) in
       select_bundles_eq Sample.planning "bundle-1" db' = (inr [bundle], db')
       /\ select_route_eq_order Sample.planning "bundle-1" db' = (inr rows, db')
       /\ Bundle.routes bundle = map Route.id rows
       /\ List.length rows = 2%nat.
Proof.
  assert (H : bundler_reaches Sample.planning Sample.bundler_request Sample.routed_db
                Sample.tools4 "final text").
  { eexists. repeat split; vm_compute; reflexivity. }
  split; [exact H |].
  destruct (executor_after_bundler Sample.planning Sample.bundler_request Sample.routed_db
              (snd (create_bundle Sample.planning Sample.bundler_request Sample.routed_db))
              Sample.tools4 "final text" (BundlerResponse.mk "bundle-1" 2)
              H eq_refl)
    as (bundle & rows & _ & Hlen & Hroutes & _ & Hsel1 & Hsel2 & _);
    try reflexivity.
  - intros b [<- | []]. discriminate.
  - intros r [<- | [<- | []]]; discriminate.
  - exists bundle, rows. cbv zeta. auto.
Defined.

(** The fallback next to a parser that returns its task. *)
Lemma bundler_fallback_is_silent_witness :
  create_bundle (with_task_parser Sample.unparsed (fun _ => Sample.not_json))
    Sample.bundler_request Sample.fresh_db
  = create_bundle
      (with_task_parser Sample.unparsed
         (fun _ => inr (TaskPlanning.mk
                          [Task.mk "weekly report" ["search"; "files"; "mail"]
                                   "Auto-generated from description"])))
      Sample.bundler_request Sample.fresh_db.
Proof.
  apply (bundler_fallback_is_silent Sample.unparsed (fun _ => Sample.not_json) _
           Sample.bundler_request Sample.fresh_db Sample.tools4 "final text"
           (Error "Invalid json output")).
  - eexists. repeat split; vm_compute; reflexivity.
  - reflexivity.
  - reflexivity.
Defined.

(** ** Failures of the store under the executor *)

(** X12: when the store raises on one of the executor's queries, the caller
    gets status 500 with the store's own message as detail: on the query for
    the bundle, and, the bundle found, on the query for its routes. *)
Theorem executor_store_failure (env : Env) (request : ExecutorRequest.t) (db : Supabase.t)
    (message : string) :
  (db_fault env (bundles_select_eq_id (ExecutorRequest.bundle_id request)) db = Some message ->
   execute_request env request db = (inl (HTTPException 500 message), db))
  /\ (forall bundle rest,
        select_bundles_eq env (ExecutorRequest.bundle_id request) db
        = (inr (bundle :: rest), db) ->
        db_fault env (route_select_eq_bundle_id_order (ExecutorRequest.bundle_id request)) db
        = Some message ->
        execute_request env request db = (inl (HTTPException 500 message), db)).
Proof.
  split.
  - intros Hq. unfold execute_request, try_except, select_bundles_eq, execute, bind.
    now rewrite Hq.
  - intros bundle rest Hsel Hq. unfold execute_request, try_except.
    rewrite (bind_inr _ _ _ _ _ Hsel).
    unfold select_route_eq_order, execute, bind. now rewrite Hq.
Qed.

(** A store without the [route] table under an existing bundle. *)
Lemma executor_store_failure_witness :
  execute_request Outage.routeless Sample.executor_request Sample.bare_db
  = (inl (HTTPException 500 "relation route does not exist"), Sample.bare_db).
Proof.
  exact (proj2 (executor_store_failure Outage.routeless Sample.executor_request
                  Sample.bare_db "relation route does not exist")
           _ _ eq_refl eq_refl).
Defined.

(** ** Runs of the failure causes *)

(** The unknown bundle id: the 500 carries the text of the handler's own 404. *)
Lemma executor_failure_cause_witness :
  exists e0,
    HTTPException 500 "404: Bundle not found"
    = HTTPException 500 (str_exn Sample.unparsed e0)
    /\ executor_stopped_by Sample.unparsed Sample.executor_request Sample.fresh_db e0.
Proof.
  exact (executor_failure_cause Sample.unparsed Sample.executor_request Sample.fresh_db
           Sample.fresh_db (HTTPException 500 "404: Bundle not found") eq_refl).
Defined.

